(** * NutriGuard: the nutrient aggregation and deficiency pipeline of [app.py]

    A shallow embedding of the request handler [analyze] and of the helpers
    it calls ([get_weather], [get_food_nutrients], [convert_to_mg],
    [NUTRIENT_KEY_MAP], [calculate_deficiency], [recommend_foods]), and of
    the control flow of the handlers [chat] (with [call_groq_chat]) and
    [generate_grocery_list], followed by the properties proved about them.

    Conventions.
    - A Python [float] is a binary64 value: Rocq's primitive [float].
    - A Python [str] is its UTF-8 byte string.  [lower] and [strip] are the
      two string methods the code uses; see their comments for what they do
      outside ASCII.
    - A Python [dict] is an association list in insertion order.
    - A raised exception is a [Raise e] result; the calls to the two
      external providers are recorded in a trace. *)

From Stdlib Require Import ZArith List String Ascii Bool Lia.
From Stdlib Require Import QArith Qround Qabs.
From Stdlib Require Import Floats DecimalString Permutation.
Import ListNotations.

Set Warnings "-inexact-float,-register-all".

(* ================================================================== *)
(** * Python strings *)
(* ================================================================== *)

Module PyStr.

Local Open Scope string_scope.
Local Open Scope nat_scope.

(** [c.lower()] on one byte: the 26 ASCII capitals move down, every other
    byte (all of a multi-byte UTF-8 sequence included) stays.  Python also
    lowers non-ASCII capitals, but only to non-ASCII letters, with two
    exceptions (U+212A to k, U+0130 to i followed by U+0307) which produce
    no unit name and no trigger of [NUTRIENT_KEY_MAP]. *)
Definition lower_ascii (c : ascii) : ascii :=
  let n := nat_of_ascii c in
  if (65 <=? n) && (n <=? 90) then ascii_of_nat (n + 32) else c.

Fixpoint lower (s : string) : string :=
  match s with
  | EmptyString => EmptyString
  | String c s' => String (lower_ascii c) (lower s')
  end.

(** The code points [str.strip()] removes, below 128: TAB, LF, VT, FF, CR,
    FS, GS, RS, US and the space. *)
Definition is_space1 (c : ascii) : bool :=
  let n := nat_of_ascii c in
  ((9 <=? n) && (n <=? 13)) || ((28 <=? n) && (n <=? 32)).

(** U+0085 and U+00A0, as UTF-8. *)
Definition is_space2 (c1 c2 : ascii) : bool :=
  (nat_of_ascii c1 =? 194) &&
  ((nat_of_ascii c2 =? 133) || (nat_of_ascii c2 =? 160)).

(** U+1680, U+2000..U+200A, U+2028, U+2029, U+202F, U+205F and U+3000, as
    UTF-8. *)
Definition is_space3 (c1 c2 c3 : ascii) : bool :=
  let a := nat_of_ascii c1 in
  let b := nat_of_ascii c2 in
  let c := nat_of_ascii c3 in
  ((a =? 225) && (b =? 154) && (c =? 128)) ||
  ((a =? 226) && (b =? 128) &&
     (((128 <=? c) && (c <=? 138)) || (c =? 168) || (c =? 169) || (c =? 175))) ||
  ((a =? 226) && (b =? 129) && (c =? 159)) ||
  ((a =? 227) && (b =? 128) && (c =? 128)).

(** [s.lstrip()]. *)
Fixpoint lstrip (s : string) : string :=
  match s with
  | EmptyString => EmptyString
  | String c1 s1 =>
      if is_space1 c1 then lstrip s1
      else
        match s1 with
        | String c2 s2 =>
            if is_space2 c1 c2 then lstrip s2
            else
              match s2 with
              | String c3 s3 => if is_space3 c1 c2 c3 then lstrip s3 else s
              | EmptyString => s
              end
        | EmptyString => s
        end
  end.

Definition is_empty (s : string) : bool :=
  match s with EmptyString => true | String _ _ => false end.

(** [s.rstrip()]: a suffix made of white space only is dropped. *)
Fixpoint rstrip (s : string) : string :=
  match s with
  | EmptyString => EmptyString
  | String c s' => if is_empty (lstrip s) then EmptyString else String c (rstrip s')
  end.

(** [s.strip()]. *)
Definition strip (s : string) : string := rstrip (lstrip s).

(** [s in t] on two strings: [s] is a contiguous part of [t]. *)
Fixpoint str_in (s t : string) : bool :=
  prefix s t ||
  match t with
  | EmptyString => false
  | String _ t' => str_in s t'
  end.

(** [x in (a, b, c)] on strings. *)
Definition str_among (x : string) (l : list string) : bool :=
  existsb (String.eqb x) l.

(** The characters of a string, each as a one-character string (what a
    [for] loop over a [str] yields, for ASCII text). *)
Fixpoint chars (s : string) : list string :=
  match s with
  | EmptyString => []
  | String c s' => String c EmptyString :: chars s'
  end.

End PyStr.

(* ================================================================== *)
(** * Python exceptions and floats *)
(* ================================================================== *)

(** The exceptions the modelled code can raise. *)
Inductive exn : Set :=
| AttributeError
| TypeError
| ValueError
| KeyError
| ZeroDivisionError
| OverflowError
| RequestError (* what [requests] raises: no connection, a timeout, an
                  error status, a body that is not JSON *).

(** The outcome of an expression that may raise. *)
Inductive result (A : Type) : Type :=
| Ok (a : A)
| Raise (e : exn).

Arguments Ok {A} a.
Arguments Raise {A} e.

Definition rbind {A B : Type} (r : result A) (f : A -> result B) : result B :=
  match r with
  | Ok a => f a
  | Raise e => Raise e
  end.

Module PyFloat.

Local Open Scope Z_scope.

(** [bool(x)]: every float but the two zeros is true, NaN included. *)
Definition truthy (x : float) : bool := negb (PrimFloat.eqb x 0%float).

(** The binary64 value nearest to [c * 10^k] ([c >= 0], sign [neg]), ties
    to even: what [strtod] returns for a decimal numeral.  A positive
    exponent gives an integer, rounded once; a negative one a quotient of
    two integers, rounded once by the division. *)
Definition float_of_decimal (neg : bool) (c k : Z) : spec_float :=
  match c with
  | Zpos p =>
      if 0 <=? k
      then binary_normalize prec emax (cond_Zopp neg (c * 10 ^ k)) 0 neg
      else SFdiv prec emax (S754_finite neg p 0)
             (S754_finite false (Z.to_pos (10 ^ (- k))) 0)
  | _ => S754_zero neg
  end.

(** [float(z)] on an [int]: the nearest binary64 value, ties to even;
    [OverflowError] when that is an infinity. *)
Definition float_of_int (z : Z) : result float :=
  match binary_normalize prec emax z 0 false with
  | S754_infinity _ => Raise OverflowError
  | sf => Ok (SF2Prim sf)
  end.

(** The exact value of the finite float with mantissa [m] and exponent [e]. *)
Definition sf_value (m : positive) (e : Z) : Q :=
  (inject_Z (Zpos m) * Qpower 2 e)%Q.

Definition round_half_even (q : Q) : Z :=
  let f := Qfloor q in
  match Qcompare (q - inject_Z f) (1 # 2) with
  | Lt => f
  | Gt => f + 1
  | Eq => if Z.even f then f else f + 1
  end.

(** [round(x, 2)]: the exact value of [x] is rounded to two decimals, ties
    to even, and the decimal numeral is read back as a float.  Infinities
    and NaN round to themselves. *)
Definition round2 (x : float) : float :=
  match Prim2SF x with
  | S754_finite s m e =>
      SF2Prim (float_of_decimal s (round_half_even (sf_value m e * 100)%Q) (-2))
  | _ => x
  end.

(** The least [p >= p0] with [v < 10^p], searched upwards. *)
Fixpoint decpt_from (fuel : nat) (v : Q) (p : Z) : Z :=
  match fuel with
  | O => p
  | S fuel' =>
      if Qle_bool (Qpower 10 p) v then decpt_from fuel' v (p + 1) else p
  end.

(** The number of decimal digits before the point of [m * 2^e]: the search
    starts below it, from an estimate of the binary logarithm. *)
Definition decpt_of (m : positive) (e : Z) : Z :=
  let b := Zpos (digits2_pos m) + e in
  decpt_from 12 (sf_value m e) ((b - 1) * 30103 / 100000 - 2).

Definition sf_eqb (a b : spec_float) : bool :=
  match a, b with
  | S754_finite s1 m1 e1, S754_finite s2 m2 e2 =>
      Bool.eqb s1 s2 && Pos.eqb m1 m2 && Z.eqb e1 e2
  | _, _ => false
  end.

(** The [n]-digit decimals next to the float below and above: the one that
    reads back as the float; when both do, the nearer one, and the one with
    an even last digit when they are equally near. *)
Definition candidate (s : bool) (m : positive) (e : Z) (n : nat) : option (Z * Z) :=
  let v := sf_value m e in
  let k := decpt_of m e - Z.of_nat n in
  let lo := Qfloor (v * Qpower 10 (- k)) in
  let hi := lo + 1 in
  let ok c := sf_eqb (float_of_decimal s c k) (S754_finite s m e) in
  let dist c := Qabs (inject_Z c * Qpower 10 k - v) in
  match ok lo, ok hi with
  | true, true =>
      match Qcompare (dist lo) (dist hi) with
      | Lt => Some (lo, k)
      | Gt => Some (hi, k)
      | Eq => if Z.even lo then Some (lo, k) else Some (hi, k)
      end
  | true, false => Some (lo, k)
  | false, true => Some (hi, k)
  | false, false => None
  end.

(** The shortest decimal that reads back as the float: 17 digits always do. *)
Fixpoint shortest_from (s : bool) (m : positive) (e : Z) (fuel n : nat) : Z * Z :=
  match fuel with
  | O => (Zpos m, e)
  | S fuel' =>
      match candidate s m e n with
      | Some r => r
      | None => shortest_from s m e fuel' (S n)
      end
  end.

Fixpoint strip_zeros (fuel : nat) (c k : Z) : Z * Z :=
  match fuel with
  | O => (c, k)
  | S fuel' =>
      if c mod 10 =? 0 then strip_zeros fuel' (c / 10) (k + 1) else (c, k)
  end.

Definition digits_of (c : Z) : string :=
  NilZero.string_of_uint (N.to_uint (Z.to_N c)).

Fixpoint zeros (n : nat) : string :=
  match n with
  | O => EmptyString
  | S n' => String "0" (zeros n')
  end.

(** The exponent of the scientific form: a sign and at least two digits. *)
Definition exp_digits (e : Z) : string :=
  let sign := if e <? 0 then "-"%string else "+"%string in
  let pad := if Z.abs e <? 10 then "0"%string else EmptyString in
  (sign ++ pad ++ digits_of (Z.abs e))%string.

(** [repr] lays the digits [ds] out with the point after [decpt] of them:
    scientific when [decpt <= -4] or [decpt > 16], positional otherwise,
    ending in [.0] when nothing follows the point. *)
Definition format_short (ds : string) (decpt : Z) : string :=
  let n := Z.of_nat (String.length ds) in
  if (decpt <=? -4) || (16 <? decpt) then
    (match ds with
     | String d EmptyString => String d EmptyString
     | String d rest => String d ("." ++ rest)
     | EmptyString => EmptyString
     end ++ "e" ++ exp_digits (decpt - 1))%string
  else if decpt <=? 0 then ("0." ++ zeros (Z.to_nat (- decpt)) ++ ds)%string
  else if n <=? decpt then (ds ++ zeros (Z.to_nat (decpt - n)) ++ ".0")%string
  else (substring 0 (Z.to_nat decpt) ds ++ "." ++
        substring (Z.to_nat decpt) (Z.to_nat (n - decpt)) ds)%string.

(** [str(x)], which an f-string uses for a float: the shortest decimal that
    reads back as [x]. *)
Definition float_str (x : float) : string :=
  match Prim2SF x with
  | S754_nan => "nan"
  | S754_infinity s => if s then "-inf" else "inf"
  | S754_zero s => if s then "-0.0" else "0.0"
  | S754_finite s m e =>
      let '(c, k) := shortest_from s m e 17 1 in
      let '(c', k') := strip_zeros 400 c k in
      let ds := digits_of c' in
      ((if s then "-" else "") ++
       format_short ds (Z.of_nat (String.length ds) + k'))%string
  end.

(** [x / y]: [ZeroDivisionError] on a zero divisor of either sign. *)
Definition py_div (x y : float) : result float :=
  if PrimFloat.eqb y 0%float then Raise ZeroDivisionError else Ok (x / y)%float.

(** [x ** 2] on a float, as [float_pow] of CPython computes it.  NaN, the
    infinities, the zeros and [+-1] are answered without the C library.
    Elsewhere the result is the library's [pow(|x|, 2.0)], which differs
    between platforms and need not be the correctly rounded square:
    [pow2 a] is the value the library returns for [a] and whether it
    reports a range error ([errno] set to [ERANGE], the only error the C
    standard gives [pow] on a finite base above zero).  An infinite
    result, and a range error with a result that is not zero, raise
    [OverflowError]. *)
Definition py_pow2 (pow2 : float -> float * bool) (x : float) : result float :=
  if is_nan x then Ok x
  else if is_infinity x then Ok infinity
  else if PrimFloat.eqb x 0%float then Ok 0%float
  else
    let a := abs x in
    if PrimFloat.eqb a 1%float then Ok 1%float
    else
      let '(r, erange) := pow2 a in
      if is_infinity r || (erange && negb (PrimFloat.eqb r 0%float))
      then Raise OverflowError
      else Ok r.

(** A library whose [pow(a, 2.0)] is the correctly rounded square. *)
Definition rounded_square (a : float) : float * bool :=
  ((a * a)%float, is_infinity (a * a)%float).

End PyFloat.

(* ================================================================== *)
(** * Python dictionaries and JSON values *)
(* ================================================================== *)

Module PyDict.

Local Open Scope string_scope.

(** A [dict] with [str] keys, in insertion order; keys are distinct. *)
Definition dict (V : Type) : Type := list (string * V).

(** [d.get(k)]: [None] when the key is absent. *)
Fixpoint dict_get {V : Type} (d : dict V) (k : string) : option V :=
  match d with
  | [] => None
  | (k', v) :: rest => if String.eqb k' k then Some v else dict_get rest k
  end.

(** [d.get(k, dflt)]. *)
Definition dict_get_default {V : Type} (d : dict V) (k : string) (dflt : V) : V :=
  match dict_get d k with
  | Some v => v
  | None => dflt
  end.

(** [d[k] = v]: an existing key keeps its place, a new one goes last. *)
Fixpoint dict_set {V : Type} (d : dict V) (k : string) (v : V) : dict V :=
  match d with
  | [] => [(k, v)]
  | (k', v') :: rest =>
      if String.eqb k' k then (k', v) :: rest else (k', v') :: dict_set rest k v
  end.

(** [d.keys()]. *)
Definition dict_keys {V : Type} (d : dict V) : list string := map fst d.

End PyDict.

Export PyDict.

(** What [json.loads] returns: [None], a [bool], an [int], a [float] (the
    literals [NaN] and [Infinity] included), a [str], a [list] or a [dict]. *)
Inductive json : Type :=
| JNull
| JBool (b : bool)
| JInt (z : Z)
| JFloat (x : float)
| JStr (s : string)
| JArr (l : list json)
| JObj (d : list (string * json)).

Module PyVal.

Local Open Scope string_scope.

(** [bool(v)]. *)
Definition truthy (v : json) : bool :=
  match v with
  | JNull => false
  | JBool b => b
  | JInt z => negb (Z.eqb z 0)
  | JFloat x => PyFloat.truthy x
  | JStr s => negb (PyStr.is_empty s)
  | JArr l => match l with [] => false | _ :: _ => true end
  | JObj d => match d with [] => false | _ :: _ => true end
  end.

(** [a or b]. *)
Definition py_or (a b : json) : json := if truthy a then a else b.

Definition is_none (v : json) : bool :=
  match v with JNull => true | _ => false end.

(** [v.get(k, dflt)]: only a [dict] has the method. *)
Definition get_default (v : json) (k : string) (dflt : json) : result json :=
  match v with
  | JObj d => Ok (dict_get_default d k dflt)
  | _ => Raise AttributeError
  end.

(** [v.get(k)]. *)
Definition get (v : json) (k : string) : result json := get_default v k JNull.

(** [v[k]] for a [str] key [k]: [KeyError] on a [dict] without it,
    [TypeError] on anything else. *)
Definition subscript (v : json) (k : string) : result json :=
  match v with
  | JObj d =>
      match dict_get d k with
      | Some x => Ok x
      | None => Raise KeyError
      end
  | _ => Raise TypeError
  end.

(** [v[0]] for a [v] that is true: the first element of a [list], the first
    character of a [str]; a [dict] has no key [0], a number no items. *)
Definition first_item (v : json) : result json :=
  match v with
  | JArr (x :: _) => Ok x
  | JStr (String c _) => Ok (JStr (String c EmptyString))
  | JObj _ => Raise KeyError
  | _ => Raise TypeError
  end.

(** What [for x in v] runs over: the elements of a [list], the keys of a
    [dict], the characters of a [str]; nothing else is iterable. *)
Definition iterate (v : json) : result (list json) :=
  match v with
  | JArr l => Ok l
  | JObj d => Ok (map (fun kv => JStr (fst kv)) d)
  | JStr s => Ok (map JStr (PyStr.chars s))
  | _ => Raise TypeError
  end.

(** [v.strip()] and [v.lower()]: methods of [str] only. *)
Definition method_strip (v : json) : result string :=
  match v with
  | JStr s => Ok (PyStr.strip s)
  | _ => Raise AttributeError
  end.

Definition method_lower (v : json) : result string :=
  match v with
  | JStr s => Ok (PyStr.lower s)
  | _ => Raise AttributeError
  end.

(** [v > 30] for the integer 30: numbers compare by value, a [bool] counts
    as 0 or 1, anything else is a [TypeError]. *)
Definition gt_30 (v : json) : result bool :=
  match v with
  | JInt z => Ok (Z.ltb 30 z)
  | JFloat x => Ok (PrimFloat.ltb 30%float x)
  | JBool _ => Ok false
  | _ => Raise TypeError
  end.

End PyVal.

(* ================================================================== *)
(** * The outside world and the calls to it *)
(* ================================================================== *)

(** What the handler does not compute itself.  [weather_api city] and
    [usda_api food] are the parsed JSON bodies of the two providers'
    answers, [None] when the request, its status check or the parsing of
    its body raises.  [float_of_str] is Python's [float] on a [str],
    [None] when it raises [ValueError].  [libm_pow2] is the C library's
    [pow(a, 2.0)], see [PyFloat.py_pow2]. *)
Record World : Type := {
  WEATHER_API_KEY : string;
  weather_api : string -> option json;
  usda_api : string -> option json;
  float_of_str : string -> option float;
  libm_pow2 : float -> float * bool
}.

(** A call that leaves the process. *)
Inductive event : Type :=
| CallWeather (city : string)
| CallNutrients (food : string).

(** A computation that may raise and that records its external calls. *)
Definition M (A : Type) : Type := (list event * result A)%type.

Definition ret {A : Type} (a : A) : M A := ([], Ok a).

Definition bind {A B : Type} (m : M A) (f : A -> M B) : M B :=
  match m with
  | (t, Ok a) => let (t', r) := f a in (t ++ t', r)
  | (t, Raise e) => (t, Raise e)
  end.

Definition lift {A : Type} (r : result A) : M A := ([], r).

Definition emit (e : event) : M unit := ([e], Ok tt).

Declare Scope py_scope.
Delimit Scope py_scope with py.

Notation "x <- m ;; k" := (bind m (fun x => k))
  (at level 61, m at next level, right associativity) : py_scope.
Notation "x <~ r ;; k" := (rbind r (fun x => k))
  (at level 61, r at next level, right associativity) : py_scope.

(* ================================================================== *)
(** * The functions of [app.py] *)
(* ================================================================== *)

Module App.

Import PyStr PyVal.
Local Open Scope string_scope.
Local Open Scope py_scope.

(** A [for] loop whose body may raise: the state after the last element, or
    the first exception. *)
Fixpoint for_each {X S : Type} (body : X -> S -> result S) (l : list X) (s : S)
  : result S :=
  match l with
  | [] => Ok s
  | x :: rest => s' <~ body x s ;; for_each body rest s'
  end.

(** The same loop for a body that also calls out. *)
Fixpoint for_each_m {X S : Type} (body : X -> S -> M S) (l : list X) (s : S)
  : M S :=
  match l with
  | [] => ret s
  | x :: rest => s' <- body x s ;; for_each_m body rest s'
  end.

(** [float(v)]. *)
Definition py_float (w : World) (v : json) : result float :=
  match v with
  | JFloat x => Ok x
  | JInt z => PyFloat.float_of_int z
  | JBool b => Ok (if b then 1%float else 0%float)
  | JStr s =>
      match float_of_str w s with
      | Some x => Ok x
      | None => Raise ValueError
      end
  | _ => Raise TypeError
  end.

(** [try: x = float(v or 0) / except Exception: x = 0.0]. *)
Definition float_or_zero (w : World) (v : json) : float :=
  match py_float w (py_or v (JInt 0)) with
  | Ok x => x
  | Raise _ => 0%float
  end.

(** ** [get_weather] (lines 44-61) *)

Definition default_weather : dict json :=
  [("condition", JStr "Unknown"); ("temp", JInt 25); ("humidity", JInt 50)].

Definition get_weather (w : World) (city : string) : dict json :=
  if is_empty (WEATHER_API_KEY w) then default_weather
  else
    let attempt :=
      d <~ match weather_api w city with
           | Some d => Ok d
           | None => Raise RequestError
           end ;;
      cur <~ subscript d "current" ;;
      cond <~ subscript cur "condition" ;;
      text <~ subscript cond "text" ;;
      temp <~ subscript cur "temp_c" ;;
      hum <~ subscript cur "humidity" ;;
      Ok [("condition", text); ("temp", temp); ("humidity", hum)] in
    match attempt with
    | Ok r => r
    | Raise _ => default_weather
    end.

(** ** [get_food_nutrients] (lines 64-88) *)

(** A value of the returned dictionary: [(float(val), unit or "")]. *)
Definition nutrient : Type := (float * json)%type.

(** The body of the loop over [foodNutrients] (lines 77-84). *)
Definition add_nutrient (w : World) (n : json) (nutrients : dict nutrient)
  : result (dict nutrient) :=
  a <~ get n "nutrientName" ;;
  b <~ get n "name" ;;
  val <~ get n "value" ;;
  c <~ get n "unitName" ;;
  d <~ get n "unit" ;;
  let name := py_or a b in
  let unit := py_or c d in
  if truthy name && negb (is_none val) then
    match py_float w val, method_strip name with
    | Ok x, Ok key => Ok (dict_set nutrients key (x, py_or unit (JStr "")))
    | _, _ => Ok nutrients
    end
  else Ok nutrients.

(** The [try] block (lines 68-85). *)
Definition fetch_nutrients (w : World) (food : string) : result (dict nutrient) :=
  data <~ match usda_api w food with
          | Some d => Ok d
          | None => Raise RequestError
          end ;;
  foods <~ get_default data "foods" (JArr []) ;;
  if negb (truthy foods) then Ok []
  else
    food_data <~ first_item foods ;;
    listed <~ get_default food_data "foodNutrients" (JArr []) ;;
    entries <~ iterate listed ;;
    for_each (add_nutrient w) entries [].

(** The whole function: any exception of the [try] block gives [{}]
    (lines 86-88). *)
Definition get_food_nutrients (w : World) (food : string) : dict nutrient :=
  match fetch_nutrients w food with
  | Ok nutrients => nutrients
  | Raise _ => []
  end.

(** ** [convert_to_mg] (lines 90-96) *)

Definition convert_to_mg (amount : float) (unit : json) : result float :=
  u <~ method_lower (py_or unit (JStr "")) ;;
  if str_among u ["g"; "gram"; "grams"] then Ok (amount * 1000)%float
  else if str_among u ["mg"; "milligram"; "milligrams"] then Ok amount
  else Ok amount.

(** ** [NUTRIENT_KEY_MAP] (lines 98-104) and its use (lines 291-298) *)

Definition NUTRIENT_KEY_MAP : dict (list string) :=
  [ ("Protein", ["protein"]);
    ("Vitamin C", ["vitamin c"; "ascorbic acid"]);
    ("Iron", ["iron"]);
    ("Calcium", ["calcium"]);
    ("Fiber", ["fiber"; "dietary fiber"]) ].

(** Line 294: [any(s in low for s in substrings)]. *)
Definition any_in (low : string) (substrings : list string) : bool :=
  existsb (fun s => str_in s low) substrings.

(** The loop with [break] of lines 293-296: the first entry one of whose
    substrings is in [low]. *)
Fixpoint first_match (entries : dict (list string)) (low : string) : option string :=
  match entries with
  | [] => None
  | (friendly, substrings) :: rest =>
      if any_in low substrings then Some friendly else first_match rest low
  end.

(** Lines 291-296: [matched_key] for the nutrient name [full_name]. *)
Definition match_key (full_name : string) : option string :=
  first_match NUTRIENT_KEY_MAP (lower full_name).

(** ** [calculate_deficiency] (lines 106-138) *)

(** The dictionary [baseline]: its five keys are fixed. *)
Record Baseline : Type := {
  Protein_g : float;
  Vitamin_C_mg : float;
  Iron_mg : float;
  Calcium_mg : float;
  Fiber_g : float
}.

(** Lines 107-113, for the lowered gender. *)
Definition default_baseline (gender : string) : Baseline :=
  {| Protein_g := 50;
     Vitamin_C_mg := 90;
     Iron_mg := if String.eqb gender "female" then 18 else 8;
     Calcium_mg := 1000;
     Fiber_g := 30 |}.

(** [for k in list(baseline.keys()): baseline[k] *= f]. *)
Definition scale_baseline (f : float) (b : Baseline) : Baseline :=
  {| Protein_g := Protein_g b * f;
     Vitamin_C_mg := Vitamin_C_mg b * f;
     Iron_mg := Iron_mg b * f;
     Calcium_mg := Calcium_mg b * f;
     Fiber_g := Fiber_g b * f |}%float.

(** Line 114. *)
Definition body_mass_index (w : World) (height_cm weight_kg : float) : result float :=
  if (0 <? height_cm)%float then
    sq <~ PyFloat.py_pow2 (libm_pow2 w) (height_cm / 100)%float ;;
    PyFloat.py_div weight_kg sq
  else Ok 0%float.

(** Lines 115-120. *)
Definition adjust_baseline (bmi : float) (b : Baseline) : Baseline :=
  if PyFloat.truthy bmi && (bmi <? 18.5)%float then scale_baseline 1.10 b
  else if PyFloat.truthy bmi && (25 <? bmi)%float then scale_baseline 0.90 b
  else b.

(** The baseline the comparisons use (lines 107-120). *)
Definition adjusted_baseline (w : World) (gender : json) (height_cm weight_kg : float)
  : result Baseline :=
  g <~ method_lower gender ;;
  bmi <~ body_mass_index w height_cm weight_kg ;;
  Ok (adjust_baseline bmi (default_baseline g)).

(** [f"{round(x, 2)} g"] and [f"{round(x, 2)} mg"]. *)
Definition show_g (x : float) : string :=
  PyFloat.float_str (PyFloat.round2 x) ++ " g".

Definition show_mg (x : float) : string :=
  PyFloat.float_str (PyFloat.round2 x) ++ " mg".

(** Lines 125-127 and 128-130: a category kept in grams. *)
Definition check_grams (key : string) (have_mg target_g : float)
  (deficiencies : dict string) : dict string :=
  if (have_mg <? (target_g * 1000) * 0.6)%float then
    let need_mg := (target_g * 1000 - have_mg)%float in
    dict_set deficiencies key (show_g (need_mg / 1000)%float)
  else deficiencies.

(** Lines 133-137: a category kept in milligrams. *)
Definition check_milligrams (short_key : string) (have need : float)
  (deficiencies : dict string) : dict string :=
  if (have <? need * 0.6)%float then
    let need_more := (need - have)%float in
    dict_set deficiencies short_key (show_mg need_more)
  else deficiencies.

Definition calculate_deficiency (w : World) (total_nutrients_mg : dict float)
  (gender : json) (height_cm weight_kg : float) : result (dict string) :=
  baseline <~ adjusted_baseline w gender height_cm weight_kg ;;
  let deficiencies := [] in
  let protein_mg := dict_get_default total_nutrients_mg "Protein" 0%float in
  let fiber_mg := dict_get_default total_nutrients_mg "Fiber" 0%float in
  let deficiencies := check_grams "Protein" protein_mg (Protein_g baseline) deficiencies in
  let deficiencies := check_grams "Fiber" fiber_mg (Fiber_g baseline) deficiencies in
  Ok (fold_left
        (fun deficiencies '(short_key, need) =>
           check_milligrams short_key
             (dict_get_default total_nutrients_mg short_key 0%float) need deficiencies)
        [("Vitamin C", Vitamin_C_mg baseline);
         ("Iron", Iron_mg baseline);
         ("Calcium", Calcium_mg baseline)]
        deficiencies).

(** ** [recommend_foods] (lines 140-154) *)

(** An element of the returned list: a tuple of strings. *)
Definition food_entry : Type := list string.

Definition base : dict (list food_entry) :=
  [ ("Protein", [["Chicken"; "27 g"]; ["Eggs"; "13 g"]; ["Paneer"; "18 g"]]);
    ("Iron", [["Spinach"; "2.7 mg"]; ["Liver"; "6.5 mg"]; ["Beans"; "3.7 mg"]]);
    ("Calcium", [["Milk"; "120 mg"]; ["Curd"; "80 mg"]; ["Almonds"; "75 mg"]]);
    ("Fiber", [["Oats"; "10 g"]; ["Apple"; "4.5 g"]; ["Carrots"; "3 g"]]);
    ("Vitamin C", [["Orange"; "53 mg"]; ["Guava"; "200 mg"]; ["Kiwi"; "90 mg"]]) ].

(** Line 148: [weather and weather.get("temp", 0) > 30]; [None] and the
    empty dictionary are false. *)
Definition is_hot (weather : option (dict json)) : result bool :=
  match weather with
  | None => Ok false
  | Some [] => Ok false
  | Some d => gt_30 (dict_get_default d "temp" (JInt 0))
  end.

Definition recommend_foods (defic : dict string) (weather : option (dict json))
  : result (list food_entry) :=
  hot <~ is_hot weather ;;
  let temp_foods := if hot then ["Cucumber"; "Yogurt"] else ["Soup"; "Eggs"] in
  let rec : list food_entry := [] in
  let rec :=
    fold_left (fun rec n => (rec ++ dict_get_default base n [])%list)
      (dict_keys defic) rec in
  let rec := fold_left (fun rec f => (rec ++ [[f; "-"; "-"]])%list) temp_foods rec in
  Ok (firstn 10 rec).

(** ** [analyze] (lines 256-317) *)

(** The body of the answer (lines 312-317). *)
Record report : Type := {
  weather : dict json;
  total_nutrients : dict string;
  deficient : dict string;
  recommendations : list food_entry
}.

(** What the handler returns: [jsonify({"error": msg}), status], or the
    report with status 200. *)
Inductive response : Type :=
| Rejected (status : Z) (error : string)
| Answer (r : report).

(** Line 278. *)
Definition item_name (it : json) : result string :=
  v <~ get it "name" ;;
  method_strip (py_or v (JStr "")).

(** Lines 279-282. *)
Definition item_qty (w : World) (it : json) : float :=
  match get it "qty" with
  | Ok v => float_or_zero w v
  | Raise _ => 0%float
  end.

(** Lines 286-300: one entry of [nut.items()]. *)
Definition add_to_totals (qty_g : float) (entry : string * nutrient)
  (totals_mg : dict float) : result (dict float) :=
  let '(full_name, (val, unit)) := entry in
  let actual := (val * (qty_g / 100))%float in
  match match_key full_name with
  | None => Ok totals_mg
  | Some matched_key =>
      amount_mg <~ convert_to_mg actual unit ;;
      Ok (dict_set totals_mg matched_key
            (dict_get_default totals_mg matched_key 0 + amount_mg)%float)
  end.

(** Lines 278-300: one element of [items]. *)
Definition add_item (w : World) (it : json) (totals_mg : dict float) : M (dict float) :=
  name <- lift (item_name it) ;;
  let qty_g := item_qty w it in
  if is_empty name || (qty_g <=? 0)%float then ret totals_mg
  else
    _ <- emit (CallNutrients name) ;;
    let nut := get_food_nutrients w name in
    lift (for_each (add_to_totals qty_g) nut totals_mg).

(** Lines 276-300: the pass over [items], from the empty [totals_mg]. *)
Definition accumulate (w : World) (items : json) : M (dict float) :=
  its <- lift (iterate items) ;;
  for_each_m (add_item w) its [].

(** Lines 305-310. *)
Definition human_totals (totals_mg : dict float) : dict string :=
  fold_left
    (fun human '(k, v) =>
       dict_set human k
         (if str_among k ["Protein"; "Fiber"] then show_g (v / 1000)%float
          else show_mg v))
    totals_mg [].

Definition analyze (w : World) (body : json) : M response :=
  let data := py_or body (JObj []) in
  c <- lift (get data "city") ;;
  city <- lift (method_strip (py_or c (JStr ""))) ;;
  items <- lift (get_default data "items" (JArr [])) ;;
  gender <- lift (get_default data "gender" (JStr "male")) ;;
  h <- lift (get data "height") ;;
  let height := float_or_zero w h in
  wt <- lift (get data "weight") ;;
  let weight := float_or_zero w wt in
  if is_empty city then ret (Rejected 400 "City required")
  else
    _ <- emit (CallWeather city) ;;
    let weather := get_weather w city in
    totals_mg <- accumulate w items ;;
    defic <- lift (calculate_deficiency w totals_mg gender height weight) ;;
    rec <- lift (recommend_foods defic (Some weather)) ;;
    ret (Answer {| weather := weather;
                   total_nutrients := human_totals totals_mg;
                   deficient := defic;
                   recommendations := rec |}).

End App.

(* ================================================================== *)
(** * The specification's vocabulary *)
(* ================================================================== *)

Module Spec.

Import PyStr.
Local Open Scope string_scope.

(** [s] occurs in [t] as a contiguous part. *)
Definition occurs_in (s t : string) : Prop :=
  exists a b : string, t = a ++ s ++ b.

(** The five tracked categories, in the order the matcher tries them. *)
Inductive Category : Set :=
| Protein
| VitaminC
| Iron
| Calcium
| Fiber.

Definition categories : list Category := [Protein; VitaminC; Iron; Calcium; Fiber].

Definition category_name (c : Category) : string :=
  match c with
  | Protein => "Protein"
  | VitaminC => "Vitamin C"
  | Iron => "Iron"
  | Calcium => "Calcium"
  | Fiber => "Fiber"
  end.

(** The substrings that select a category (section 4.2). *)
Definition triggers (c : Category) : list string :=
  match c with
  | Protein => ["protein"]
  | VitaminC => ["vitamin c"; "ascorbic acid"]
  | Iron => ["iron"]
  | Calcium => ["calcium"]
  | Fiber => ["fiber"; "dietary fiber"]
  end.

(** A key of the canonical totals is the name of a tracked category. *)
Definition tracked (k : string) : Prop := In k (map category_name categories).

(** Section 4.2, [match]: the first category one of whose triggers is
    contained in the lowercased raw name. *)
Definition key_matcher (rawName : string) : option Category :=
  find (fun c => existsb (fun s => str_in s (lower rawName)) (triggers c)) categories.

(** Section 4.1, [toMilligrams], on a unit string. *)
Definition toMilligrams (amount : float) (unit : string) : float :=
  if str_among (lower unit) ["g"; "gram"; "grams"] then (amount * 1000)%float
  else if str_among (lower unit) ["mg"; "milligram"; "milligrams"] then amount
  else amount.

(** Section 3, [NutrientSample]. *)
Record NutrientSample : Type := {
  nutrientName : string;
  amount : float;
  unit : string
}.

(** Section 3, [CanonicalTotals]: an amount in milligrams per category. *)
Definition CanonicalTotals : Type := Category -> float.

Definition zero_totals : CanonicalTotals := fun _ => 0%float.

Definition category_eqb (a b : Category) : bool :=
  String.eqb (category_name a) (category_name b).

Definition add_to (t : CanonicalTotals) (c : Category) (x : float) : CanonicalTotals :=
  fun c' => if category_eqb c c' then (t c + x)%float else t c'.

(** Section 4.3, one sample of an item of [quantityGrams] grams: scale by
    [quantityGrams / 100.0], match the name, and when it matches convert
    and add. *)
Definition accumulate_sample (quantityGrams : float) (t : CanonicalTotals)
  (s : NutrientSample) : CanonicalTotals :=
  match key_matcher (nutrientName s) with
  | Some c => add_to t c (toMilligrams (amount s * (quantityGrams / 100))%float (unit s))
  | None => t
  end.

(** Section 4.3, one item: processed when [quantityGrams > 0] and its name
    is not empty, skipped otherwise; a failed fetch counts as no sample. *)
Definition accumulate_item (fetchNutrients : string -> option (list NutrientSample))
  (t : CanonicalTotals) (item : string * float) : CanonicalTotals :=
  let '(name, quantityGrams) := item in
  if (0 <? quantityGrams)%float && negb (is_empty name) then
    let samples :=
      match fetchNutrients name with
      | Some l => l
      | None => []
      end in
    fold_left (accumulate_sample quantityGrams) samples t
  else t.

(** Section 4.3, [accumulate]: every call starts from the all-zero total. *)
Definition spec_accumulate (fetchNutrients : string -> option (list NutrientSample))
  (items : list (string * float)) : CanonicalTotals :=
  fold_left (accumulate_item fetchNutrients) items zero_totals.

(** The items the specification's accumulator skips: an empty name, or a
    quantity that is not strictly positive. *)
Definition skipped (item : string * float) : bool :=
  is_empty (fst item) || negb (0 <? snd item)%float.

End Spec.

(* ================================================================== *)
(** * Requests and provider answers of the documented shape *)
(* ================================================================== *)

Module Shape.

Import PyStr PyVal App.
Local Open Scope string_scope.

(** An element [{name, qty}] of the request's [items]. *)
Definition encode_item (item : string * float) : json :=
  JObj [("name", JStr (fst item)); ("qty", JFloat (snd item))].

(** The item as the handler reads it: the name stripped. *)
Definition read_item (item : string * float) : string * float :=
  (strip (fst item), snd item).

(** Every unit of a fetched dictionary is a string. *)
Definition units_are_text (nut : dict nutrient) : bool :=
  forallb (fun e => match snd (snd e) with JStr _ => true | _ => false end) nut.

Definition unit_text (u : json) : string :=
  match u with
  | JStr s => s
  | _ => ""
  end.

(** An entry of the fetched dictionary as a [NutrientSample]. *)
Definition to_sample (e : string * nutrient) : Spec.NutrientSample :=
  {| Spec.nutrientName := fst e;
     Spec.amount := fst (snd e);
     Spec.unit := unit_text (snd (snd e)) |}.

(** The per-food lookup the accumulator is given: the samples of the
    fetched dictionary, [None] when the fetch failed. *)
Definition lookup (w : World) (food : string) : option (list Spec.NutrientSample) :=
  match fetch_nutrients w food with
  | Ok nut => Some (map to_sample nut)
  | Raise _ => None
  end.

(** The test of line 283 on an item as the handler reads it. *)
Definition skips (item : string * float) : bool :=
  is_empty (fst item) || (snd item <=? 0)%float.

(** The foods a pass over [items] fetches, in order. *)
Definition fetched (items : list (string * float)) : list event :=
  map (fun item => CallNutrients (fst item))
    (filter (fun item => negb (skips item)) (map read_item items)).

(** The [city] of a request body is absent, [null], or a string of white
    space only. *)
Definition city_missing_or_blank (d : dict json) : bool :=
  match dict_get d "city" with
  | None => true
  | Some JNull => true
  | Some (JStr s) => is_empty (strip s)
  | Some _ => false
  end.

(** The amounts one entry of a fetched dictionary adds to the key [k]. *)
Definition entry_amounts (qty_g : float) (k : string) (e : string * nutrient)
  : list float :=
  match match_key (fst e), convert_to_mg (fst (snd e) * (qty_g / 100))%float (snd (snd e)) with
  | Some k', Ok amount_mg => if String.eqb k' k then [amount_mg] else []
  | _, _ => []
  end.

(** The amounts one element of [items] adds to the key [k]. *)
Definition item_amounts (w : World) (k : string) (it : json) : list float :=
  match item_name it with
  | Ok name =>
      let qty_g := item_qty w it in
      if is_empty name || (qty_g <=? 0)%float then []
      else flat_map (entry_amounts qty_g k) (get_food_nutrients w name)
  | Raise _ => []
  end.

(** The amounts a pass over [items] adds to the key [k], in order. *)
Definition contributions (w : World) (k : string) (items : list json) : list float :=
  flat_map (item_amounts w k) items.

(** An entry of a fetched dictionary that the pass can add: its name
    matches no key, or its unit converts. *)
Definition entry_ok (qty_g : float) (e : string * nutrient) : bool :=
  match match_key (fst e), convert_to_mg (fst (snd e) * (qty_g / 100))%float (snd (snd e)) with
  | Some _, Raise _ => false
  | _, _ => true
  end.

(** An element of [items] that the pass gets through without raising. *)
Definition item_ok (w : World) (it : json) : bool :=
  match item_name it with
  | Ok name =>
      let qty_g := item_qty w it in
      if is_empty name || (qty_g <=? 0)%float then true
      else forallb (entry_ok qty_g) (get_food_nutrients w name)
  | Raise _ => false
  end.

(** A left-to-right float sum. *)
Definition float_sum (l : list float) : float :=
  fold_left PrimFloat.add l 0%float.

(** The dictionary [totals_mg] holds the totals [T]: a key that is absent
    stands for [0.0], as [totals_mg.get(key, 0.0)] reads it. *)
Definition agrees (totals_mg : dict float) (T : Spec.CanonicalTotals) : Prop :=
  forall c, dict_get_default totals_mg (Spec.category_name c) 0%float = T c.

End Shape.

(* ================================================================== *)
(** * Sample worlds and requests *)
(* ================================================================== *)

Module Sample.

Import Shape.
Local Open Scope string_scope.

(** The provider's answer for a food with a single nutrient. *)
Definition answer (name : string) (value : float) (unit : string) : json :=
  JObj [("foods",
         JArr [JObj [("foodNutrients",
                      JArr [JObj [("nutrientName", JStr name);
                                  ("value", JFloat value);
                                  ("unitName", JStr unit)]])]])].

(** Every food has 10 g of protein per 100 g. *)
Definition protein_world : World :=
  {| WEATHER_API_KEY := "";
     weather_api := fun _ => None;
     usda_api := fun _ => Some (answer "Protein" 10 "G");
     float_of_str := fun _ => None;
     libm_pow2 := PyFloat.rounded_square |}.

(** The same provider, with a [float] that reads the text [nan]. *)
Definition nan_text_world : World :=
  {| WEATHER_API_KEY := "";
     weather_api := fun _ => None;
     usda_api := fun _ => Some (answer "Protein" 10 "G");
     float_of_str := fun s => if String.eqb s "nan" then Some nan else None;
     libm_pow2 := PyFloat.rounded_square |}.

Definition two_eggs : list (string * float) :=
  [("egg", 100%float); (" egg ", 200%float); ("  ", 50%float); ("rice", (-1)%float)].

(** The foods a, b and c have 0.1, 0.2 and 0.3 mg of iron per 100 g; no
    other food is known. *)
Definition iron_world : World :=
  {| WEATHER_API_KEY := "";
     weather_api := fun _ => None;
     usda_api := fun food =>
       if String.eqb food "a" then Some (answer "Iron, Fe" 0.1 "MG")
       else if String.eqb food "b" then Some (answer "Iron, Fe" 0.2 "MG")
       else if String.eqb food "c" then Some (answer "Iron, Fe" 0.3 "MG")
       else None;
     float_of_str := fun _ => None;
     libm_pow2 := PyFloat.rounded_square |}.

Definition items_abc : list json :=
  map encode_item [("a", 100%float); ("b", 100%float); ("c", 100%float)].

Definition items_cba : list json :=
  map encode_item [("c", 100%float); ("b", 100%float); ("a", 100%float)].

End Sample.

(* ================================================================== *)
(** * Signs of binary64 values *)
(* ================================================================== *)

Module FloatSign.

(** Not below zero: a zero of either sign, a positive number, [+inf], NaN. *)
Definition not_negative (sf : spec_float) : Prop :=
  match sf with
  | S754_finite true _ _ | S754_infinity true => False
  | _ => True
  end.

(** The sign bit is clear, or the value is NaN. *)
Definition sign_clear (sf : spec_float) : Prop :=
  match sf with
  | S754_zero s | S754_infinity s | S754_finite s _ _ => s = false
  | S754_nan => True
  end.

End FloatSign.

(* ================================================================== *)
(** * Further vocabulary for the functions of [app.py] *)
(* ================================================================== *)

Module Further.

Import PyStr PyVal App.
Local Open Scope string_scope.

(** The table entries of the keys of a deficiency report, in the order of
    its keys: what the first loop of [recommend_foods] collects. *)
Definition table_entries (defic : dict string) : list food_entry :=
  flat_map (fun n => dict_get_default base n []) (dict_keys defic).

(** The two entries the second loop of [recommend_foods] appends. *)
Definition weather_entries (hot : bool) : list food_entry :=
  if hot then [["Cucumber"; "-"; "-"]; ["Yogurt"; "-"; "-"]]
  else [["Soup"; "-"; "-"]; ["Eggs"; "-"; "-"]].

(** The keys a deficiency report can hold, in the order
    [calculate_deficiency] writes them. *)
Definition report_order : list string :=
  ["Protein"; "Fiber"; "Vitamin C"; "Iron"; "Calcium"].

(** [l] is [full] with some elements left out. *)
Fixpoint subsequence (l full : list string) : Prop :=
  match full with
  | [] => l = []
  | x :: full' =>
      subsequence l full' \/
      match l with
      | [] => False
      | y :: l' => y = x /\ subsequence l' full'
      end
  end.


Definition is_object (v : json) : bool :=
  match v with JObj _ => true | _ => false end.

Definition is_text (v : json) : bool :=
  match v with JStr _ => true | _ => false end.

(** What a report says of a category kept in grams: its shortfall when the
    total is below 60% of the target, nothing otherwise. *)
Definition grams_line (have_mg target_g : float) : option string :=
  if (have_mg <? (target_g * 1000) * 0.6)%float
  then Some (show_g ((target_g * 1000 - have_mg) / 1000)%float)
  else None.

(** The same for a category kept in milligrams. *)
Definition milligrams_line (have need : float) : option string :=
  if (have <? need * 0.6)%float then Some (show_mg (need - have)%float) else None.


(** An entry of a fetched dictionary whose unit [convert_to_mg] accepts when
    the entry's name matches a key: a false unit or a string. *)
Definition entry_usable (e : string * nutrient) : bool :=
  match match_key (fst e) with
  | None => true
  | Some _ => negb (truthy (snd (snd e))) || is_text (snd (snd e))
  end.

(** An element of [items] the pass gets through: an object whose [name] is
    false or a string and, unless it is skipped, whose fetched entries are
    all usable. *)
Definition item_passes (w : World) (it : json) : bool :=
  match it with
  | JObj d =>
      let v := dict_get_default d "name" JNull in
      if truthy v then
        match v with
        | JStr s =>
            if is_empty (strip s) || (item_qty w it <=? 0)%float then true
            else forallb entry_usable (get_food_nutrients w (strip s))
        | _ => false
        end
      else true
  | _ => false
  end.

(** Lines 307-310: how one total is shown. *)
Definition show_total (kv : string * float) : string * string :=
  (fst kv,
   if str_among (fst kv) ["Protein"; "Fiber"] then show_g (snd kv / 1000)%float
   else show_mg (snd kv)).

(** The name of an entry of [foodNutrients]: [nutrientName], or [name]
    when that is false (line 77). *)
Definition entry_name (d : dict json) : json :=
  py_or (dict_get_default d "nutrientName" JNull) (dict_get_default d "name" JNull).

(** A temperature that [> 30] accepts: a number or a [bool]. *)
Definition comparable (v : json) : bool :=
  match v with
  | JInt _ | JFloat _ | JBool _ => true
  | _ => false
  end.

(** A provider answer whose second nutrient entry is not an object. *)
Definition broken_answer : json :=
  JObj [("foods",
         JArr [JObj [("foodNutrients",
                      JArr [JObj [("nutrientName", JStr "Protein");
                                  ("value", JFloat 10);
                                  ("unitName", JStr "G")];
                            JStr "Iron, Fe"])]])].

Definition broken_world : World :=
  {| WEATHER_API_KEY := "";
     weather_api := fun _ => None;
     usda_api := fun _ => Some broken_answer;
     float_of_str := fun _ => None;
     libm_pow2 := PyFloat.rounded_square |}.

(** A weather provider that reports the temperature as text. *)
Definition text_temp_world : World :=
  {| WEATHER_API_KEY := "key";
     weather_api := fun _ =>
       Some (JObj [("current",
                    JObj [("condition", JObj [("text", JStr "Sunny")]);
                          ("temp_c", JStr "35");
                          ("humidity", JInt 40)])]);
     usda_api := fun _ => None;
     float_of_str := fun _ => None;
     libm_pow2 := PyFloat.rounded_square |}.

End Further.

(* ================================================================== *)
(** * The chat and grocery-list handlers of [app.py] *)
(* ================================================================== *)

Module Groq.

Import PyStr PyVal App Further.
Local Open Scope string_scope.
Local Open Scope py_scope.

(** What [requests.post], [raise_for_status] and [response.json] give for
    the one call a handler makes to the completion service: the parsed
    body, an exception of [requests] ([RequestException]), or another
    exception. *)
Inductive post_outcome : Type :=
| Answered (result : json)
| RequestException
| OtherException.

(** What [json.loads] does on a [str]: it returns a value, raises
    [JSONDecodeError], or raises something else (a plain [ValueError] for
    an integer with more digits than the interpreter converts, a
    [RecursionError] for a text nested too deep). *)
Inductive loads_outcome : Type :=
| Parsed (v : json)
| JSONDecodeError
| LoadsError.

(** What the two handlers do not compute themselves.  [json_loads] is
    [json.loads].  The text sent to the service (the prompts, built with
    f-strings) is not modelled; whether building it raises is.  [print] is
    taken to succeed. *)
Record GroqWorld : Type := {
  GROQ_API_KEY : string;
  post_chat : post_outcome;
  json_loads : string -> loads_outcome
}.

(** The exceptions the handlers turn into text with [str(e)]. *)
Inductive cause : Type :=
| Python (e : exn)
| IndexError
| SliceOfDict      (* [d[:100]] on a [dict]: [TypeError] up to Python 3.11,
                      [KeyError] from 3.12 *)
| ProviderOther    (* the exception of [OtherException] *)
| LoadsOther       (* the exception of [LoadsError] *)
| NotAList         (* [ValueError("Response is not a list")] *)
| MissingFields.   (* [ValueError("Missing required fields in grocery item")] *)

Definition raised {A : Type} (r : result A) : cause + A :=
  match r with
  | Ok a => inr a
  | Raise e => inl (Python e)
  end.

(** A computation that stops at the first exception. *)
Definition attempt {A B : Type} (r : cause + A) (f : A -> cause + B) : cause + B :=
  match r with
  | inr a => f a
  | inl c => inl c
  end.

Notation "x <-- r ;; k" := (attempt r (fun x => k))
  (at level 61, r at next level, right associativity) : py_scope.

(** [v[0]]. *)
Definition item0 (v : json) : cause + json :=
  match v with
  | JArr (x :: _) => inr x
  | JArr [] => inl IndexError
  | JStr (String c _) => inr (JStr (String c EmptyString))
  | JStr EmptyString => inl IndexError
  | JObj _ => inl (Python KeyError)
  | _ => inl (Python TypeError)
  end.

(** [result["choices"][0]["message"]["content"]]. *)
Definition message_content (result : json) : cause + json :=
  choices <-- raised (subscript result "choices") ;;
  first <-- item0 choices ;;
  message <-- raised (subscript first "message") ;;
  raised (subscript message "content").

(** [len(v)] and [v[:100]], for their exceptions only. *)
Definition check_len (v : json) : cause + unit :=
  match v with
  | JStr _ | JArr _ | JObj _ => inr tt
  | _ => inl (Python TypeError)
  end.

Definition check_slice (v : json) : cause + unit :=
  match v with
  | JStr _ | JArr _ => inr tt
  | JObj _ => inl SliceOfDict
  | _ => inl (Python TypeError)
  end.

(** [v.items()] and [v.get(...)]: methods of [dict] only. *)
Definition check_dict (v : json) : cause + unit :=
  match v with
  | JObj _ => inr tt
  | _ => inl (Python AttributeError)
  end.

(** ** [call_groq_chat] (lines 157-245) *)

(** What the function returns: the content of the answer, or one of its
    three apologies. *)
Inductive reply : Type :=
| Content (text : json)
| KeyNotConfigured     (* line 169 *)
| SorryConnection      (* line 240 *)
| SorryUnexpected (c : cause).  (* line 245 *)

(** Lines 179-182, 184-190 and 192-195: what the prompt reads of the
    three fields of [analysis]. *)
Definition read_total_nutrients (v : json) : cause + unit :=
  if truthy v then check_dict v else inr tt.

Definition read_deficient (v : json) : cause + unit :=
  if truthy v then _ <-- check_len v ;; check_dict v else inr tt.

Definition read_weather (v : json) : cause + unit :=
  if truthy v then check_dict v else inr tt.

(** Lines 176-197, for an [analysis] that is true. *)
Definition read_analysis (analysis : json) : cause + unit :=
  total_nutrients <-- raised (get analysis "total_nutrients") ;;
  _ <-- read_total_nutrients total_nutrients ;;
  deficient <-- raised (get analysis "deficient") ;;
  _ <-- read_deficient deficient ;;
  weather <-- raised (get analysis "weather") ;;
  read_weather weather.

(** Lines 206-245: the call and what is made of its outcome. *)
Definition chat_completion (g : GroqWorld) : reply :=
  match post_chat g with
  | RequestException => SorryConnection
  | OtherException => SorryUnexpected ProviderOther
  | Answered result =>
      match (content <-- message_content result ;;
             _ <-- check_len content ;;
             _ <-- check_slice content ;;
             inr content) with
      | inr content => Content content
      | inl c => SorryUnexpected c
      end
  end.

(** The whole function: whether the service was called, and the reply or
    the exception that leaves the function. *)
Definition call_groq_chat (g : GroqWorld) (message analysis lang : json)
  : bool * (cause + reply) :=
  match (if truthy analysis then check_dict analysis else inr tt) with
  | inl c => (false, inl c)
  | inr _ =>
      if is_empty (GROQ_API_KEY g) then (false, inr KeyNotConfigured)
      else
        match (if truthy analysis then read_analysis analysis else inr tt) with
        | inl c => (false, inl c)
        | inr _ => (true, inr (chat_completion g))
        end
  end.

(** ** [chat] (lines 319-364) *)

(** [body] is what [request.get_json()] returns, here and in
    [generate_grocery_list]. *)

Inductive chat_response : Type :=
| ChatReply (r : reply)        (* 200, [{"ok": True, "reply": ...}] *)
| NoMessage                    (* 400, [{"ok": False, "error": "No message provided"}] *)
| ChatKeyNotSet                (* 500, line 346 *)
| ChatFailed (c : cause).      (* 500, [{"ok": False, "error": str(e)}] *)

Definition chat (g : GroqWorld) (body : json) : bool * chat_response :=
  let data := py_or body (JObj []) in
  match data with
  | JObj d =>
      let message := dict_get_default d "message" JNull in
      let analysis_data := dict_get_default d "analysis_data" JNull in
      let lang := dict_get_default d "lang" (JStr "en") in
      if negb (truthy message) then (false, NoMessage)
      else if is_empty (GROQ_API_KEY g) then (false, ChatKeyNotSet)
      else
        match call_groq_chat g message (py_or analysis_data (JObj [])) lang with
        | (called, inr r) => (called, ChatReply r)
        | (called, inl c) => (called, ChatFailed c)
        end
  | _ => (false, ChatFailed (Python AttributeError))
  end.

(** ** [generate_grocery_list] (lines 366-515) *)

(** [s.split(sep)] for a separator that is not empty: [skip] characters of
    a separator just found are still to be passed over, [cur] is the piece
    being read. *)
Fixpoint split_from (sep : string) (skip : nat) (cur s : string) : list string :=
  match s with
  | EmptyString => [cur]
  | String c s' =>
      match skip with
      | S k => split_from sep k cur s'
      | O =>
          if prefix sep s
          then cur :: split_from sep (String.length sep - 1) EmptyString s'
          else split_from sep 0 (cur ++ String c EmptyString) s'
      end
  end.

Definition split (sep s : string) : list string := split_from sep 0 EmptyString s.

(** Lines 468-471: the text that is parsed. *)
Definition fenced_text (ai_response : string) : string :=
  if str_in "```json" ai_response then
    strip (nth 0 (split "```" (nth 1 (split "```json" ai_response) "")) "")
  else if str_in "```" ai_response then
    strip (nth 0 (split "```" (nth 1 (split "```" ai_response) "")) "")
  else ai_response.

(** [k in item]. *)
Definition contains (item : json) (k : string) : cause + bool :=
  match item with
  | JObj d => inr (match dict_get d k with Some _ => true | None => false end)
  | JArr l => inr (existsb (fun x => match x with
                                     | JStr s => String.eqb s k
                                     | _ => false
                                     end) l)
  | JStr s => inr (str_in k s)
  | _ => inl (Python TypeError)
  end.

(** [all(k in item for k in keys)]. *)
Fixpoint has_all (item : json) (keys : list string) : cause + bool :=
  match keys with
  | [] => inr true
  | k :: rest =>
      b <-- contains item k ;;
      if b then has_all item rest else inr false
  end.

(** Lines 481-483. *)
Fixpoint check_items (items : list json) : cause + unit :=
  match items with
  | [] => inr tt
  | item :: rest =>
      b <-- has_all item ["category"; "name"; "quantity"] ;;
      if b then check_items rest else inl MissingFields
  end.

Definition fallback_item (category name quantity : string) : json :=
  JObj [("category", JStr category); ("name", JStr name); ("quantity", JStr quantity)].

(** Lines 493-501. *)
Definition fallback_list : list json :=
  [ fallback_item "Fruits & Vegetables" "Spinach" "500g";
    fallback_item "Fruits & Vegetables" "Tomatoes" "1kg";
    fallback_item "Proteins" "Chicken Breast" "1kg";
    fallback_item "Proteins" "Eggs" "12 pieces";
    fallback_item "Grains & Cereals" "Brown Rice" "2kg";
    fallback_item "Dairy & Alternatives" "Low-fat Milk" "2L";
    fallback_item "Snacks & Beverages" "Green Tea" "100g" ].

Inductive grocery_response : Type :=
| GroceryList (grocery_list : list json)   (* 200, [{"grocery_list": ...}] *)
| Fallback                                 (* 200, [fallback_list] and a note *)
| GroceryKeyNotSet                         (* 500, line 381 *)
| ServiceError                             (* 500, [AI service error: ...] *)
| GroceryFailed (c : cause).               (* 500, [{"error": str(e)}] *)

(** Lines 466-515, from the inner [try] on: only [JSONDecodeError] is
    answered with the fallback, every other exception reaches the handler
    of line 510. *)
Definition parse_list (g : GroqWorld) (ai_response : string) : grocery_response :=
  match json_loads g (fenced_text ai_response) with
  | JSONDecodeError => Fallback
  | LoadsError => GroceryFailed LoadsOther
  | Parsed (JArr grocery_list) =>
      match check_items grocery_list with
      | inr _ => GroceryList grocery_list
      | inl c => GroceryFailed c
      end
  | Parsed _ => GroceryFailed NotAList
  end.

Definition generate_grocery_list (g : GroqWorld) (body : json)
  : bool * grocery_response :=
  let data := py_or body (JObj []) in
  if is_empty (GROQ_API_KEY g) then (false, GroceryKeyNotSet)
  else
    match check_dict data with
    | inl c => (false, GroceryFailed c)
    | inr _ =>
        (true,
         match post_chat g with
         | RequestException => ServiceError
         | OtherException => GroceryFailed ProviderOther
         | Answered result =>
             match (content <-- message_content result ;;
                    raised (method_strip content)) with
             | inl c => GroceryFailed c
             | inr ai_response => parse_list g ai_response
             end
         end)
    end.

(** ** Vocabulary of the properties *)

(** The body of the answer of [analyze] as a client receives it (lines
    312-317) and may send it back as [analysis_data]. *)
Definition report_json (r : report) : json :=
  JObj [("weather", JObj (weather r));
        ("total_nutrients", JObj (map (fun kv => (fst kv, JStr (snd kv))) (total_nutrients r)));
        ("deficient", JObj (map (fun kv => (fst kv, JStr (snd kv))) (deficient r)));
        ("recommendations", JArr (map (fun e => JArr (map JStr e)) (recommendations r)))].

Definition is_list (v : json) : bool :=
  match v with JArr _ => true | _ => false end.

(** What lines 176-197 need of a field of [analysis]: false, or an
    object. *)
Definition field_ok (analysis : dict json) (k : string) : bool :=
  let v := dict_get_default analysis k JNull in
  negb (truthy v) || is_object v.

(** What [call_groq_chat] needs of [analysis_data]. *)
Definition analysis_ok (analysis_data : json) : bool :=
  negb (truthy analysis_data) ||
  match analysis_data with
  | JObj a => field_ok a "total_nutrients" && field_ok a "deficient" && field_ok a "weather"
  | _ => false
  end.

Definition backtick : ascii := "`"%char.

(** No character of [s] is a backtick. *)
Fixpoint no_backtick (s : string) : bool :=
  match s with
  | EmptyString => true
  | String c s' => negb (Ascii.eqb c backtick) && no_backtick s'
  end.

Definition starts_with_backtick (s : string) : bool :=
  match s with
  | String c _ => Ascii.eqb c backtick
  | EmptyString => false
  end.

(** What the check of lines 481-483 accepts: an object with the three
    keys, but also a list with the three names among its elements and a
    string in which the three names occur. *)
Definition has_fields (item : json) : Prop :=
  match item with
  | JObj d => forall k, In k ["category"; "name"; "quantity"] -> In k (dict_keys d)
  | JArr l => forall k, In k ["category"; "name"; "quantity"] -> In (JStr k) l
  | JStr s => forall k, In k ["category"; "name"; "quantity"] -> Spec.occurs_in k s
  | _ => False
  end.

(** Sample answers of the completion service. *)
Definition completion (content : json) : json :=
  JObj [("choices", JArr [JObj [("message", JObj [("role", JStr "assistant");
                                                   ("content", content)])]])].

Definition sample_groq (outcome : post_outcome) : GroqWorld :=
  {| GROQ_API_KEY := "gsk";
     post_chat := outcome;
     json_loads := fun s =>
       if String.eqb s "[1]" then Parsed (JArr [JInt 1])
       else if String.eqb s "{}" then Parsed (JObj [])
       else JSONDecodeError |}.

End Groq.

(* ================================================================== *)
(** * Facts about strings and dictionaries *)
(* ================================================================== *)

Section StringFacts.

Import PyStr.
Local Open Scope string_scope.

Lemma prefix_app (s t : string) :
  prefix s t = true <-> exists b, t = s ++ b.
Proof.
  revert t; induction s as [| c s IH]; intros t.
  - split; [intros _; now exists t | now destruct t].
  - destruct t as [| c' t]; simpl.
    + split; [discriminate | intros [b Hb]; discriminate].
    + destruct (Ascii.ascii_dec c c') as [-> | Hne].
      * rewrite IH. split; intros [b Hb]; exists b; congruence.
      * split; [discriminate | intros [b Hb]; congruence].
Qed.

Lemma str_in_occurs (s t : string) :
  str_in s t = true <-> Spec.occurs_in s t.
Proof.
  unfold Spec.occurs_in.
  induction t as [| c t IH].
  - cbn [str_in]. rewrite orb_false_r, prefix_app. split.
    + intros [b Hb]. now exists "", b.
    + intros [a [b Hab]]. destruct a; simpl in Hab.
      * now exists b.
      * discriminate.
  - cbn [str_in]. rewrite orb_true_iff, prefix_app, IH. split.
    + intros [[b Hb] | [a [b Hab]]].
      * now exists "", b.
      * exists (String c a), b. simpl. now rewrite Hab.
    + intros [a [b Hab]]. destruct a as [| c' a]; simpl in Hab.
      * left. now exists b.
      * right. exists a, b. congruence.
Qed.

Lemma str_among_In (x : string) (l : list string) :
  str_among x l = true <-> In x l.
Proof.
  unfold str_among. rewrite existsb_exists. split.
  - intros [y [Hy Heq]]. apply String.eqb_eq in Heq. now subst.
  - intros H. exists x. split; [assumption | apply String.eqb_refl].
Qed.

End StringFacts.

Section DictFacts.

Context {V : Type}.

Lemma dict_get_set_same (d : dict V) (k : string) (v : V) :
  dict_get (dict_set d k v) k = Some v.
Proof.
  induction d as [| [k' v'] d IH]; simpl.
  - now rewrite String.eqb_refl.
  - destruct (String.eqb k' k) eqn:E; simpl; rewrite E; [reflexivity | exact IH].
Qed.

Lemma dict_get_set_other (d : dict V) (k k' : string) (v : V) :
  k <> k' -> dict_get (dict_set d k v) k' = dict_get d k'.
Proof.
  intros Hne. induction d as [| [k0 v0] d IH]; simpl.
  - destruct (String.eqb k k') eqn:E; [apply String.eqb_eq in E; contradiction | reflexivity].
  - destruct (String.eqb k0 k) eqn:E; simpl.
    + apply String.eqb_eq in E; subst k0.
      destruct (String.eqb k k') eqn:E'; [apply String.eqb_eq in E'; contradiction | reflexivity].
    + destruct (String.eqb k0 k'); [reflexivity | exact IH].
Qed.

Lemma dict_keys_set (d : dict V) (k : string) (v : V) (x : string) :
  In x (dict_keys (dict_set d k v)) <-> x = k \/ In x (dict_keys d).
Proof.
  unfold dict_keys. induction d as [| [k' v'] d IH]; simpl.
  - intuition congruence.
  - destruct (String.eqb k' k) eqn:E; simpl.
    + apply String.eqb_eq in E; subst k'. intuition congruence.
    + rewrite IH. intuition congruence.
Qed.

End DictFacts.

(* ================================================================== *)
(** * Unit conversion *)
(* ================================================================== *)

Section UnitConversion.

Import PyStr PyVal App.
Local Open Scope string_scope.

Lemma py_or_text (u : string) : py_or (JStr u) (JStr "") = JStr u.
Proof. now destruct u. Qed.

Lemma convert_to_mg_text (x : float) (u : string) :
  convert_to_mg x (JStr u) = Ok (Spec.toMilligrams x u).
Proof.
  unfold convert_to_mg, Spec.toMilligrams.
  rewrite py_or_text. cbn [method_lower rbind].
  destruct (str_among (lower u) ["g"; "gram"; "grams"]); [reflexivity |].
  now destruct (str_among (lower u) ["mg"; "milligram"; "milligrams"]).
Qed.

(** C4.  For every amount [x] and every unit string [u], [convert_to_mg]
    returns [x * 1000.0] when the lowercased [u] is one of "g", "gram",
    "grams", returns [x] when it is one of "mg", "milligram", "milligrams",
    and returns [x] for any other unit, the missing unit ([None]) included;
    in each case it returns and does not raise. *)
Theorem convert_to_mg_units (x : float) (u : string) :
  (In (lower u) ["g"; "gram"; "grams"] ->
   convert_to_mg x (JStr u) = Ok (x * 1000)%float) /\
  (In (lower u) ["mg"; "milligram"; "milligrams"] ->
   convert_to_mg x (JStr u) = Ok x) /\
  (~ In (lower u) ["g"; "gram"; "grams"] ->
   convert_to_mg x (JStr u) = Ok x) /\
  convert_to_mg x JNull = Ok x /\
  (exists y, convert_to_mg x (JStr u) = Ok y).
Proof.
  rewrite convert_to_mg_text. unfold Spec.toMilligrams.
  destruct (str_among (lower u) ["g"; "gram"; "grams"]) eqn:Eg.
  - apply str_among_In in Eg. repeat split.
    + intros Hmg. exfalso. simpl in Eg, Hmg.
      destruct Eg as [E | [E | [E | []]]]; rewrite <- E in Hmg;
        destruct Hmg as [H | [H | [H | []]]]; discriminate H.
    + intros Hn. contradiction.
    + eexists; reflexivity.
  - assert (Hn : ~ In (lower u) ["g"; "gram"; "grams"]).
    { intros H. apply str_among_In in H. congruence. }
    repeat split.
    + intros H. contradiction.
    + intros _. destruct (str_among (lower u) ["mg"; "milligram"; "milligrams"]); reflexivity.
    + intros _. destruct (str_among (lower u) ["mg"; "milligram"; "milligrams"]); reflexivity.
    + exists x. destruct (str_among (lower u) ["mg"; "milligram"; "milligrams"]); reflexivity.
Qed.

Lemma convert_to_mg_units_witness :
  convert_to_mg 2 (JStr "Grams") = Ok 2000%float /\
  convert_to_mg 2 (JStr "MG") = Ok 2%float /\
  convert_to_mg 2 (JStr "mcg") = Ok 2%float.
Proof.
  split; [| split].
  - apply (proj1 (convert_to_mg_units 2 "Grams")). simpl. auto.
  - apply (proj1 (proj2 (convert_to_mg_units 2 "MG"))). simpl. auto.
  - apply (proj1 (proj2 (proj2 (convert_to_mg_units 2 "mcg")))).
    simpl. intros [H | [H | [H | []]]]; discriminate H.
Defined.

End UnitConversion.

(* ================================================================== *)
(** * The key matcher *)
(* ================================================================== *)

Section KeyMatcher.

Import PyStr App.
Local Open Scope string_scope.

Lemma any_in_occurs (low : string) (substrings : list string) :
  any_in low substrings = true <->
  exists s, In s substrings /\ Spec.occurs_in s low.
Proof.
  unfold any_in. rewrite existsb_exists.
  split; intros [s [Hs H]]; exists s; (split; [assumption |]);
    now apply str_in_occurs.
Qed.

Lemma any_in_none (low : string) (substrings : list string) :
  any_in low substrings = false ->
  forall s, In s substrings -> ~ Spec.occurs_in s low.
Proof.
  intros Hf s Hs Hocc.
  assert (any_in low substrings = true) by (apply any_in_occurs; eauto).
  congruence.
Qed.

Lemma first_match_Some (entries : dict (list string)) (low c : string) :
  first_match entries low = Some c ->
  exists i subs,
    nth_error entries i = Some (c, subs) /\
    any_in low subs = true /\
    forall j e, (j < i)%nat -> nth_error entries j = Some e ->
                any_in low (snd e) = false.
Proof.
  induction entries as [| [friendly subs] rest IH]; simpl; [discriminate |].
  destruct (any_in low subs) eqn:E.
  - intros [= <-]. exists 0%nat, subs. repeat split; [assumption |].
    intros j e Hj. inversion Hj.
  - intros H. destruct (IH H) as [i [subs' [Hn [Hany Hbefore]]]].
    exists (S i), subs'. repeat split; try assumption.
    intros [| j] e Hj; simpl.
    + intros [= <-]. exact E.
    + apply Hbefore. now apply PeanoNat.Nat.succ_lt_mono.
Qed.

Lemma first_match_None (entries : dict (list string)) (low : string) :
  first_match entries low = None ->
  forall e, In e entries -> any_in low (snd e) = false.
Proof.
  induction entries as [| [friendly subs] rest IH]; simpl; [contradiction |].
  destruct (any_in low subs) eqn:E; [discriminate |].
  intros H e [<- | He]; [exact E | now apply IH].
Qed.

(** The matcher of the code is the matcher of the specification. *)
Lemma match_key_matcher (raw : string) :
  match_key raw = option_map Spec.category_name (Spec.key_matcher raw).
Proof.
  unfold match_key, Spec.key_matcher, any_in. cbn -[str_in lower].
  repeat match goal with
         | |- context [if ?b then _ else _] => destruct b; [reflexivity |]
         end.
  reflexivity.
Qed.

Lemma match_key_tracked (raw k : string) :
  match_key raw = Some k -> Spec.tracked k.
Proof.
  rewrite match_key_matcher. destruct (Spec.key_matcher raw) as [c |]; [| discriminate].
  intros [= <-]. unfold Spec.tracked. apply in_map. destruct c; simpl; auto 6.
Qed.

(** C5.  For every raw nutrient name the matcher returns the first entry of
    [NUTRIENT_KEY_MAP], whose keys are Protein, Vitamin C, Iron, Calcium,
    Fiber in that order, one of whose substrings occurs in the lowercased
    name, and returns [None] when no substring of any entry occurs in it;
    "Vitamin C, total ascorbic acid" and "ascorbic acid" give Vitamin C and
    "Potassium" gives [None]. *)
Theorem match_key_first_trigger (raw : string) :
  NUTRIENT_KEY_MAP
    = map (fun c => (Spec.category_name c, Spec.triggers c)) Spec.categories /\
  dict_keys NUTRIENT_KEY_MAP = ["Protein"; "Vitamin C"; "Iron"; "Calcium"; "Fiber"] /\
  match match_key raw with
  | Some k =>
      exists i subs,
        nth_error NUTRIENT_KEY_MAP i = Some (k, subs) /\
        (exists s, In s subs /\ Spec.occurs_in s (lower raw)) /\
        (forall j k' subs' s,
            (j < i)%nat -> nth_error NUTRIENT_KEY_MAP j = Some (k', subs') ->
            In s subs' -> ~ Spec.occurs_in s (lower raw))
  | None =>
      forall k subs s,
        In (k, subs) NUTRIENT_KEY_MAP -> In s subs ->
        ~ Spec.occurs_in s (lower raw)
  end /\
  match_key "Vitamin C, total ascorbic acid" = Some "Vitamin C" /\
  match_key "ascorbic acid" = Some "Vitamin C" /\
  match_key "Potassium" = None.
Proof.
  split; [reflexivity |]. split; [reflexivity |].
  split; [| repeat split; reflexivity].
  unfold match_key.
  destruct (first_match NUTRIENT_KEY_MAP (lower raw)) as [k |] eqn:E.
  - destruct (first_match_Some _ _ _ E) as [i [subs [Hn [Hany Hbefore]]]].
    exists i, subs. split; [assumption |]. split.
    + now apply any_in_occurs.
    + intros j k' subs' s Hj Hnj Hs.
      apply (any_in_none _ subs'); [| assumption].
      exact (Hbefore j (k', subs') Hj Hnj).
  - intros k subs s Hin Hs.
    apply (any_in_none _ subs); [| assumption].
    exact (first_match_None _ _ E (k, subs) Hin).
Qed.

End KeyMatcher.

(* ================================================================== *)
(** * Recommendations *)
(* ================================================================== *)

Section Recommendations.

Import PyVal App.
Local Open Scope string_scope.

(** C6, what the code returns.  With a deficiency report that holds
    Protein only and a temperature of 35 the result has five entries,
    Chicken, Eggs, Paneer, Cucumber and Yogurt in that order; the three
    entries taken from the table [base] are (name, amount) pairs, and the
    two weather entries are the 3-tuples [("Cucumber", "-", "-")] and
    [("Yogurt", "-", "-")] that line 153 appends. *)
Lemma recommend_foods_protein_hot (shortfall : string) :
  recommend_foods [("Protein", shortfall)] (Some [("temp", JInt 35)])
  = Ok [["Chicken"; "27 g"]; ["Eggs"; "13 g"]; ["Paneer"; "18 g"];
        ["Cucumber"; "-"; "-"]; ["Yogurt"; "-"; "-"]].
Proof. reflexivity. Qed.

(** C9.  For every deficiency report and every weather value the
    recommendations have at most 10 entries; the only call that does not
    return is the one whose temperature cannot be compared with 30, which
    raises [TypeError]. *)
Theorem recommend_foods_at_most_ten (defic : dict string) (weather : option (dict json)) :
  match recommend_foods defic weather with
  | Ok rec => (List.length rec <= 10)%nat
  | Raise e => is_hot weather = Raise e /\ e = TypeError
  end.
Proof.
  unfold recommend_foods.
  destruct (is_hot weather) as [hot | e] eqn:E; cbn [rbind].
  - apply firstn_le_length.
  - split; [reflexivity |].
    unfold is_hot in E. destruct weather as [[| kv d] |]; try discriminate E.
    unfold gt_30 in E.
    destruct (dict_get_default (kv :: d) "temp" (JInt 0)); congruence.
Qed.

End Recommendations.

(* ================================================================== *)
(** * The request handler *)
(* ================================================================== *)

Section Handler.

Import PyStr PyVal App Shape.
Local Open Scope string_scope.

(** C10.  A request whose [city] is absent, [null] or, once stripped, empty
    is answered with status 400 and the trace of external calls is empty:
    neither the weather provider nor the nutrient provider has been
    called.  A request without a JSON body is answered the same way. *)
Theorem analyze_rejects_missing_city (w : World) :
  analyze w JNull = ([], Ok (Rejected 400 "City required")) /\
  forall d : dict json,
    city_missing_or_blank d = true ->
    analyze w (JObj d) = ([], Ok (Rejected 400 "City required")).
Proof.
  split; [reflexivity |].
  intros d H. unfold analyze.
  assert (Hd : py_or (JObj d) (JObj []) = JObj d) by now destruct d.
  rewrite Hd. unfold city_missing_or_blank in H.
  unfold get, get_default, dict_get_default.
  destruct (dict_get d "city") as [c |]; [| reflexivity].
  destruct c; try discriminate H; [reflexivity |].
  cbv beta iota. cbn [lift bind]. rewrite py_or_text.
  cbn [lift bind method_strip app]. now rewrite H.
Qed.

Lemma analyze_rejects_missing_city_witness :
  analyze
    {| WEATHER_API_KEY := "key";
       weather_api := fun _ => None;
       usda_api := fun _ => None;
       float_of_str := fun _ => None;
       libm_pow2 := PyFloat.rounded_square |}
    (JObj [("city", JStr "  "); ("items", JArr [JObj [("name", JStr "rice"); ("qty", JInt 100)]])])
  = ([], Ok (Rejected 400 "City required")).
Proof.
  apply (proj2 (analyze_rejects_missing_city _)). reflexivity.
Defined.

End Handler.

(* ================================================================== *)
(** * Facts about binary64 comparisons and signs *)
(* ================================================================== *)

Section FloatFacts.

Import FloatSign.

Lemma Prim2SF_zero : Prim2SF 0 = S754_zero false.
Proof. reflexivity. Qed.

(** Rounding keeps the sign it is given. *)
Lemma binary_round_aux_sign (s : bool) (m e : Z) (l : location) :
  match binary_round_aux prec emax s m e l with
  | S754_zero s' | S754_infinity s' | S754_finite s' _ _ => s' = s
  | S754_nan => True
  end.
Proof.
  unfold binary_round_aux.
  destruct (shr_fexp prec emax m e l) as [mrs' e'].
  destruct (shr_fexp prec emax _ e' loc_Exact) as [mrs'' e''].
  destruct (shr_m mrs''); [reflexivity | | exact I].
  now destruct (Z.leb e'' _).
Qed.

Lemma ltb_zero_not_negative (b : float) :
  not_negative (Prim2SF b) -> (b <? 0)%float = false.
Proof.
  rewrite ltb_spec, Prim2SF_zero.
  destruct (Prim2SF b) as [s | s | | s m e]; try destruct s; simpl;
    intros H; try reflexivity; contradiction.
Qed.

Lemma leb_zero_cases (w : float) :
  (0 <=? w)%float = true ->
  match Prim2SF w with
  | S754_zero _ => True
  | S754_infinity s | S754_finite s _ _ => s = false
  | S754_nan => False
  end.
Proof.
  rewrite leb_spec, Prim2SF_zero.
  destruct (Prim2SF w) as [s | s | | s m e]; try destruct s; simpl;
    intros H; try reflexivity; try exact I; discriminate.
Qed.

(** A quotient of a number that is not below zero by one whose sign bit is
    clear is not below zero. *)
Lemma div_not_negative (w sq : float) :
  (0 <=? w)%float = true -> sign_clear (Prim2SF sq) ->
  not_negative (Prim2SF (w / sq)).
Proof.
  intros Hw Hsq. apply leb_zero_cases in Hw. rewrite div_spec.
  unfold SF64div.
  destruct (Prim2SF w) as [s | s | | s m e]; try contradiction;
    destruct (Prim2SF sq) as [s' | s' | | s' m' e']; simpl in *; subst; simpl;
    try exact I; try (destruct s; exact I).
  destruct (SFdiv_core_binary prec emax (Z.pos m) e (Z.pos m') e') as [[mz ez] lz].
  pose proof (binary_round_aux_sign false mz ez lz) as H.
  destruct (binary_round_aux prec emax false mz ez lz); simpl; subst; exact I.
Qed.

(** The square is never below zero when the library's [pow] is not. *)
Lemma pow2_sign_clear (pow2 : float -> float * bool) (x sq : float) :
  (forall a, sign_clear (Prim2SF (fst (pow2 a)))) ->
  PyFloat.py_pow2 pow2 x = Ok sq -> sign_clear (Prim2SF sq).
Proof.
  intros Hp. unfold PyFloat.py_pow2.
  destruct (is_nan x) eqn:En.
  { intros [= <-]. unfold Prim2SF. now rewrite En. }
  destruct (is_infinity x). { intros [= <-]. reflexivity. }
  destruct (x =? 0)%float. { intros [= <-]. reflexivity. }
  destruct (abs x =? 1)%float. { intros [= <-]. reflexivity. }
  pose proof (Hp (abs x)) as H.
  destruct (pow2 (abs x)) as [r erange]. cbn [fst] in H.
  destruct (is_infinity r || (erange && negb (r =? 0)%float)); [discriminate |].
  now intros [= <-].
Qed.

(** The correctly rounded square is such a library. *)
Lemma rounded_square_sign_clear (a : float) :
  sign_clear (Prim2SF (fst (PyFloat.rounded_square a))).
Proof.
  unfold PyFloat.rounded_square. cbn [fst]. rewrite mul_spec. unfold SF64mul.
  destruct (Prim2SF a) as [s | s | | s m e]; simpl; try exact I;
    try (now destruct s).
  pose proof (binary_round_aux_sign (xorb s s) (Z.pos (m * m)) (e + e) loc_Exact) as H.
  rewrite xorb_nilpotent in *.
  destruct (binary_round_aux prec emax false _ _ _); simpl; auto.
Qed.

(** A float equal to zero is not above it, and one at most zero is not
    above it either. *)
Lemma leb_zero_not_ltb (h : float) :
  (h <=? 0)%float = true -> (0 <? h)%float = false.
Proof.
  rewrite leb_spec, ltb_spec, Prim2SF_zero.
  destruct (Prim2SF h) as [s | s | | s m e]; try destruct s; simpl;
    intros H; try reflexivity; discriminate.
Qed.

Lemma eqb_zero_leb (q : float) :
  (q =? 0)%float = true -> (q <=? 0)%float = true.
Proof.
  rewrite eqb_spec, leb_spec, Prim2SF_zero.
  destruct (Prim2SF q) as [s | s | | s m e]; try destruct s; simpl;
    intros H; try reflexivity; discriminate.
Qed.

(** For a float that is not below zero, "true and below [c]" is "above
    zero and below [c]". *)
Lemma truthy_below (b c : float) :
  (b <? 0)%float = false ->
  PyFloat.truthy b && (b <? c)%float = (0 <? b)%float && (b <? c)%float.
Proof.
  unfold PyFloat.truthy.
  rewrite eqb_spec, !ltb_spec, Prim2SF_zero.
  destruct (Prim2SF b) as [s | s | | s m e]; try destruct s;
    try reflexivity; simpl; intros H; try discriminate H; reflexivity.
Qed.

(** "True and below a positive [c]" is "below zero, or above zero and
    below [c]". *)
Lemma truthy_below_cases (b c : float) :
  (0 <? c)%float = true ->
  PyFloat.truthy b && (b <? c)%float
  = (b <? 0)%float || ((0 <? b)%float && (b <? c)%float).
Proof.
  unfold PyFloat.truthy.
  rewrite eqb_spec, !ltb_spec, Prim2SF_zero.
  destruct (Prim2SF b) as [s | s | | s m e]; try destruct s; simpl;
    try reflexivity;
    destruct (Prim2SF c) as [s' | s' | | s' m' e']; try destruct s'; simpl;
    intros H; try discriminate H; reflexivity.
Qed.

(** A float above a positive constant is true. *)
Lemma truthy_above (b c : float) :
  (0 <? c)%float = true ->
  PyFloat.truthy b && (c <? b)%float = (c <? b)%float.
Proof.
  unfold PyFloat.truthy.
  rewrite eqb_spec, !ltb_spec, Prim2SF_zero.
  destruct (Prim2SF b) as [s | s | | s m e]; try destruct s; simpl;
    try reflexivity;
    destruct (Prim2SF c) as [s' | s' | | s' m' e']; try destruct s'; simpl;
    intros H; try discriminate H; reflexivity.
Qed.

End FloatFacts.

(* ================================================================== *)
(** * The deficiency evaluator *)
(* ================================================================== *)

Section Deficiency.

Import PyStr PyVal App.
Local Open Scope string_scope.

(** C2.  For gender "female", height 0, weight 0 and empty totals the
    evaluator returns a report with exactly the five tracked categories:
    Protein "50.0 g", Fiber "30.0 g", Vitamin C "90.0 mg", Iron "18.0 mg"
    and Calcium "1000.0 mg". *)
Theorem calculate_deficiency_empty_female (w : World) :
  calculate_deficiency w [] (JStr "female") 0 0
  = Ok [("Protein", "50.0 g"); ("Fiber", "30.0 g"); ("Vitamin C", "90.0 mg");
        ("Iron", "18.0 mg"); ("Calcium", "1000.0 mg")].
Proof. vm_compute. reflexivity. Qed.

(** The body mass index of a weight that is not below zero is not below
    zero, when the library's [pow] is not. *)
Lemma body_mass_index_not_negative (w : World) (height_cm weight_kg bmi : float) :
  (forall a, FloatSign.sign_clear (Prim2SF (fst (libm_pow2 w a)))) ->
  (0 <=? weight_kg)%float = true ->
  body_mass_index w height_cm weight_kg = Ok bmi ->
  (bmi <? 0)%float = false.
Proof.
  intros Hp Hw. unfold body_mass_index.
  destruct (0 <? height_cm)%float.
  - destruct (PyFloat.py_pow2 (libm_pow2 w) (height_cm / 100)) as [sq | e] eqn:E;
      cbn [rbind]; [| discriminate].
    unfold PyFloat.py_div. destruct (sq =? 0)%float; [discriminate |].
    intros [= <-]. apply ltb_zero_not_negative, div_not_negative; [assumption |].
    now apply pow2_sign_clear with (pow2 := libm_pow2 w) (x := (height_cm / 100)%float).
  - intros [= <-]. reflexivity.
Qed.

(** The square of line 114 is the library's: where its [pow(1.6598, 2.0)]
    is 2.75493604 (the rounded product is 2.7549360399999996) the BMI of
    68.873401 kg at 165.98 cm is exactly 25. *)
Lemma body_mass_index_library (w : World) :
  libm_pow2 w (165.98 / 100)%float = (2.75493604%float, false) ->
  body_mass_index w 165.98 68.873401 = Ok 25%float.
Proof.
  intros H. unfold body_mass_index, PyFloat.py_pow2.
  replace (abs (165.98 / 100))%float with (165.98 / 100)%float by reflexivity.
  rewrite H. reflexivity.
Qed.

Lemma adjust_baseline_brackets (bmi : float) (b : Baseline) :
  adjust_baseline bmi b =
    if (bmi <? 0)%float || ((0 <? bmi)%float && (bmi <? 18.5)%float)
    then scale_baseline 1.10 b
    else if (25 <? bmi)%float then scale_baseline 0.90 b
    else b.
Proof.
  unfold adjust_baseline.
  rewrite (truthy_below_cases bmi 18.5), (truthy_above bmi 25) by reflexivity.
  reflexivity.
Qed.

(** C3.  At most one adjustment applies to the baselines, chosen by the
    body mass index the code computes: every baseline is multiplied by
    1.10 when the BMI is below 18.5 and not zero, that is when
    [0 < BMI < 18.5] or when the BMI is below zero, which a weight below
    zero gives; by 0.90 when [BMI > 25]; and left unchanged otherwise.  A
    BMI of exactly 18.5 or exactly 25 changes nothing, and with a height
    that is at most 0 the BMI is 0 and nothing is changed.  For a weight
    that is not below zero, and a library [pow] that is never below zero,
    the first bracket is [0 < BMI < 18.5].  (The code computes no BMI, and
    raises, when the square of [height_cm / 100.0] overflows or is
    zero.) *)
Theorem bmi_adjustment (w : World) (gender : string) (height_cm weight_kg : float) :
  (forall bmi,
      body_mass_index w height_cm weight_kg = Ok bmi ->
      adjusted_baseline w (JStr gender) height_cm weight_kg
      = Ok (if (bmi <? 0)%float || ((0 <? bmi)%float && (bmi <? 18.5)%float)
            then scale_baseline 1.10 (default_baseline (lower gender))
            else if (25 <? bmi)%float
                 then scale_baseline 0.90 (default_baseline (lower gender))
                 else default_baseline (lower gender))) /\
  (body_mass_index w height_cm weight_kg = Ok 18.5%float ->
   adjusted_baseline w (JStr gender) height_cm weight_kg
   = Ok (default_baseline (lower gender))) /\
  (body_mass_index w height_cm weight_kg = Ok 25%float ->
   adjusted_baseline w (JStr gender) height_cm weight_kg
   = Ok (default_baseline (lower gender))) /\
  ((height_cm <=? 0)%float = true ->
   body_mass_index w height_cm weight_kg = Ok 0%float /\
   adjusted_baseline w (JStr gender) height_cm weight_kg
   = Ok (default_baseline (lower gender))) /\
  ((forall a, FloatSign.sign_clear (Prim2SF (fst (libm_pow2 w a)))) ->
   (0 <=? weight_kg)%float = true ->
   forall bmi,
     body_mass_index w height_cm weight_kg = Ok bmi ->
     adjusted_baseline w (JStr gender) height_cm weight_kg
     = Ok (if (0 <? bmi)%float && (bmi <? 18.5)%float
           then scale_baseline 1.10 (default_baseline (lower gender))
           else if (25 <? bmi)%float
                then scale_baseline 0.90 (default_baseline (lower gender))
                else default_baseline (lower gender))) /\
  (forall f b,
      scale_baseline f b
      = {| Protein_g := Protein_g b * f;
           Vitamin_C_mg := Vitamin_C_mg b * f;
           Iron_mg := Iron_mg b * f;
           Calcium_mg := Calcium_mg b * f;
           Fiber_g := Fiber_g b * f |}%float).
Proof.
  assert (Hbmi : forall bmi,
             body_mass_index w height_cm weight_kg = Ok bmi ->
             adjusted_baseline w (JStr gender) height_cm weight_kg
             = Ok (if (bmi <? 0)%float || ((0 <? bmi)%float && (bmi <? 18.5)%float)
                   then scale_baseline 1.10 (default_baseline (lower gender))
                   else if (25 <? bmi)%float
                        then scale_baseline 0.90 (default_baseline (lower gender))
                        else default_baseline (lower gender))).
  { intros bmi E. unfold adjusted_baseline. cbn [method_lower rbind].
    rewrite E. cbn [rbind]. f_equal.
    apply adjust_baseline_brackets. }
  split; [exact Hbmi |].
  split; [intros E; exact (Hbmi _ E) |].
  split; [intros E; exact (Hbmi _ E) |].
  split; [| split; [| reflexivity]].
  - intros Hh.
    assert (E : body_mass_index w height_cm weight_kg = Ok 0%float).
    { unfold body_mass_index. now rewrite (leb_zero_not_ltb _ Hh). }
    split; [exact E | exact (Hbmi _ E)].
  - intros Hp Hw bmi E. rewrite (Hbmi _ E).
    now rewrite (body_mass_index_not_negative w _ _ _ Hp Hw E).
Qed.

Lemma bmi_adjustment_witness :
  body_mass_index Sample.protein_world 100 17 = Ok 17%float /\
  adjusted_baseline Sample.protein_world (JStr "Male") 100 17
  = Ok (scale_baseline 1.10 (default_baseline "male")) /\
  adjusted_baseline Sample.protein_world (JStr "Male") 100 18.5
  = Ok (default_baseline "male") /\
  adjusted_baseline Sample.protein_world (JStr "Male") 100 25
  = Ok (default_baseline "male") /\
  adjusted_baseline Sample.protein_world (JStr "Male") 0 50
  = Ok (default_baseline "male").
Proof.
  split; [reflexivity |]. split; [| split; [| split]].
  - exact (proj1 (bmi_adjustment Sample.protein_world "Male" 100 17) _ eq_refl).
  - exact (proj1 (proj2 (bmi_adjustment Sample.protein_world "Male" 100 18.5)) eq_refl).
  - exact (proj1 (proj2 (proj2 (bmi_adjustment Sample.protein_world "Male" 100 25)))
             eq_refl).
  - exact (proj2 (proj1 (proj2 (proj2 (proj2
             (bmi_adjustment Sample.protein_world "Male" 0 50)))) eq_refl)).
Defined.

(** A weight of -50 kg at a height of 100 cm, where the library's [pow] is
    not called: the BMI is -50, which is neither between 0 and 18.5 nor
    above 25, and every baseline is multiplied by 1.10. *)
Lemma negative_bmi_is_adjusted :
  body_mass_index Sample.protein_world 100 (-50) = Ok (-50)%float /\
  ((0 <? -50)%float && (-50 <? 18.5)%float = false) /\
  (25 <? -50)%float = false /\
  adjusted_baseline Sample.protein_world (JStr "male") 100 (-50)
  = Ok (scale_baseline 1.10 (default_baseline "male")) /\
  scale_baseline 1.10 (default_baseline "male") <> default_baseline "male".
Proof.
  repeat split; try reflexivity.
  intros H. apply (f_equal (fun b => Prim2SF (Protein_g b))) in H.
  vm_compute in H. discriminate H.
Qed.

End Deficiency.

(* ================================================================== *)
(** * The accumulation pass *)
(* ================================================================== *)

Section Accumulation.

Import PyStr PyVal App Shape.
Local Open Scope string_scope.

Lemma snd_bind_lift {A B : Type} (r : result A) (f : A -> M B) :
  snd (bind (lift r) f) = match r with Ok a => snd (f a) | Raise e => Raise e end.
Proof.
  destruct r as [a | e]; [| reflexivity].
  unfold lift, bind. now destruct (f a).
Qed.

Lemma snd_bind {A B : Type} (m : M A) (f : A -> M B) :
  snd (bind m f) = match snd m with Ok a => snd (f a) | Raise e => Raise e end.
Proof.
  destruct m as [t [a | e]]; [| reflexivity].
  unfold bind. simpl. now destruct (f a).
Qed.

(** One entry: what it does to the total of the key [k]. *)
Lemma add_to_totals_key (qty_g : float) (e : string * nutrient) (t t' : dict float)
  (k : string) :
  add_to_totals qty_g e t = Ok t' ->
  dict_get_default t' k 0%float
  = fold_left PrimFloat.add (entry_amounts qty_g k e) (dict_get_default t k 0%float) /\
  (In k (dict_keys t') <-> In k (dict_keys t) \/ entry_amounts qty_g k e <> []).
Proof.
  destruct e as [full_name [val unit]].
  unfold add_to_totals, entry_amounts. cbn [fst snd].
  destruct (match_key full_name) as [k' |].
  - destruct (convert_to_mg _ unit) as [amount_mg | ex]; cbn [rbind]; [| discriminate].
    intros [= <-]. destruct (String.eqb k' k) eqn:E.
    + apply String.eqb_eq in E. subst k'. split.
      * unfold dict_get_default at 1. now rewrite dict_get_set_same.
      * rewrite dict_keys_set. split; [intros _; right; discriminate | auto].
    + apply String.eqb_neq in E. split.
      * unfold dict_get_default. now rewrite dict_get_set_other.
      * rewrite dict_keys_set. split.
        -- intros [H | H]; [congruence | auto].
        -- intros [H | H]; [auto | congruence].
  - intros [= <-]. split; [reflexivity |]. split; [auto | intros [H | H]; congruence].
Qed.

Lemma for_each_entries_key (qty_g : float) (nut : dict nutrient) (t t' : dict float)
  (k : string) :
  for_each (add_to_totals qty_g) nut t = Ok t' ->
  dict_get_default t' k 0%float
  = fold_left PrimFloat.add (flat_map (entry_amounts qty_g k) nut)
      (dict_get_default t k 0%float) /\
  (In k (dict_keys t') <->
   In k (dict_keys t) \/ flat_map (entry_amounts qty_g k) nut <> []).
Proof.
  revert t. induction nut as [| e nut IH]; intros t; simpl.
  - intros [= <-]. split; [reflexivity |]. split; [auto | intros [H | H]; congruence].
  - destruct (add_to_totals qty_g e t) as [t1 | ex] eqn:E; cbn [rbind]; [| discriminate].
    intros H. destruct (IH _ H) as [Hv Hk].
    destruct (add_to_totals_key _ _ _ _ k E) as [Hv1 Hk1].
    split.
    + now rewrite fold_left_app, <- Hv1.
    + rewrite Hk, Hk1. split.
      * intros [[H1 | H1] | H1]; auto.
        -- right. destruct (entry_amounts qty_g k e); [congruence | discriminate].
        -- right. intros Happ. apply app_eq_nil in Happ. tauto.
      * intros [H1 | H1]; auto.
        destruct (entry_amounts qty_g k e) eqn:Ee; [right; exact H1 | left; right; discriminate].
Qed.

Lemma for_each_entries_ok (qty_g : float) (nut : dict nutrient) (t : dict float) :
  (exists t', for_each (add_to_totals qty_g) nut t = Ok t') <->
  forallb (entry_ok qty_g) nut = true.
Proof.
  revert t. induction nut as [| e nut IH]; intros t; simpl.
  - split; [reflexivity | intros _; now exists t].
  - rewrite andb_true_iff. destruct e as [full_name [val unit]].
    unfold add_to_totals at 1, entry_ok at 1. cbn [fst snd].
    destruct (match_key full_name) as [k' |].
    + destruct (convert_to_mg _ unit) as [amount_mg | ex]; cbn [rbind].
      * rewrite IH. tauto.
      * split; [intros [t' H]; discriminate | intros [H _]; discriminate].
    + cbn [rbind]. rewrite IH. tauto.
Qed.


(** One element of [items]: what it does to the total of the key [k]. *)
Lemma add_item_key (w : World) (it : json) (t t' : dict float) (k : string) :
  snd (add_item w it t) = Ok t' ->
  dict_get_default t' k 0%float
  = fold_left PrimFloat.add (item_amounts w k it) (dict_get_default t k 0%float) /\
  (In k (dict_keys t') <-> In k (dict_keys t) \/ item_amounts w k it <> []).
Proof.
  unfold add_item, item_amounts. rewrite snd_bind_lift.
  destruct (item_name it) as [name | ex]; [| discriminate].
  destruct (is_empty name || (item_qty w it <=? 0)%float).
  - intros [= <-]. split; [reflexivity |]. split; [auto | intros [H | H]; congruence].
  - rewrite snd_bind. cbn [emit snd]. apply for_each_entries_key.
Qed.

Lemma add_item_ok (w : World) (it : json) (t : dict float) :
  (exists t', snd (add_item w it t) = Ok t') <-> item_ok w it = true.
Proof.
  unfold add_item, item_ok. rewrite snd_bind_lift.
  destruct (item_name it) as [name | ex].
  - destruct (is_empty name || (item_qty w it <=? 0)%float).
    + split; [reflexivity | intros _; now exists t].
    + rewrite snd_bind. cbn [emit snd lift]. apply for_each_entries_ok.
  - split; [intros [t' H]; discriminate | discriminate].
Qed.

Lemma pass_key (w : World) (its : list json) (t t' : dict float) (k : string) :
  snd (for_each_m (add_item w) its t) = Ok t' ->
  dict_get_default t' k 0%float
  = fold_left PrimFloat.add (contributions w k its) (dict_get_default t k 0%float) /\
  (In k (dict_keys t') <-> In k (dict_keys t) \/ contributions w k its <> []).
Proof.
  unfold contributions. revert t. induction its as [| it its IH]; intros t; simpl.
  - intros [= <-]. split; [reflexivity |]. split; [auto | intros [H | H]; congruence].
  - rewrite snd_bind.
    destruct (snd (add_item w it t)) as [t1 | ex] eqn:E; [| discriminate].
    intros H. destruct (IH _ H) as [Hv Hk].
    destruct (add_item_key _ _ _ _ k E) as [Hv1 Hk1].
    split.
    + now rewrite fold_left_app, <- Hv1.
    + rewrite Hk, Hk1. split.
      * intros [[H1 | H1] | H1]; auto.
        -- right. destruct (item_amounts w k it); [congruence | discriminate].
        -- right. intros Happ. apply app_eq_nil in Happ. tauto.
      * intros [H1 | H1]; auto.
        destruct (item_amounts w k it) eqn:Ee; [right; exact H1 | left; right; discriminate].
Qed.

Lemma pass_ok (w : World) (its : list json) (t : dict float) :
  (exists t', snd (for_each_m (add_item w) its t) = Ok t') <->
  forallb (item_ok w) its = true.
Proof.
  revert t. induction its as [| it its IH]; intros t; simpl.
  - split; [reflexivity | intros _; now exists t].
  - rewrite andb_true_iff, snd_bind, <- (add_item_ok w it t). split.
    + destruct (snd (add_item w it t)) as [t1 | ex]; [| intros [t' H]; discriminate].
      intros H. split; [now exists t1 | now apply (IH t1)].
    + intros [[t1 E] H]. rewrite E. now apply IH.
Qed.

Lemma accumulate_list (w : World) (its : list json) :
  accumulate w (JArr its) = for_each_m (add_item w) its [].
Proof.
  unfold accumulate. cbn [iterate lift bind].
  now destruct (for_each_m (add_item w) its []).
Qed.

Lemma forallb_Permutation {A : Type} (f : A -> bool) (l l' : list A) :
  Permutation l l' -> forallb f l = forallb f l'.
Proof.
  induction 1; simpl; try congruence.
  now rewrite !andb_assoc, (andb_comm (f y)).
Qed.

Lemma Permutation_flat_map_same {A B : Type} (f : A -> list B) (l l' : list A) :
  Permutation l l' -> Permutation (flat_map f l) (flat_map f l').
Proof.
  induction 1; simpl.
  - constructor.
  - now apply Permutation_app_head.
  - rewrite !app_assoc. apply Permutation_app_tail, Permutation_app_comm.
  - now transitivity (flat_map f l').
Qed.

(** C8, as the code has it.  For a fixed world, a pass over a permutation
    of the items that a first pass got through gets through as well, has
    the same keys, and adds to every key the same amounts in a permuted
    order: each total is the left-to-right binary64 sum of its amounts,
    from [0.0], so the two passes agree wherever that sum does not depend
    on the order of its terms. *)
Theorem permuted_items_same_summands (w : World) (its its' : list json) (t : dict float) :
  Permutation its its' ->
  snd (accumulate w (JArr its)) = Ok t ->
  exists t',
    snd (accumulate w (JArr its')) = Ok t' /\
    forall k,
      Permutation (contributions w k its) (contributions w k its') /\
      dict_get_default t k 0%float = float_sum (contributions w k its) /\
      dict_get_default t' k 0%float = float_sum (contributions w k its') /\
      (In k (dict_keys t) <-> In k (dict_keys t')).
Proof.
  intros Hp. rewrite !accumulate_list. intros E.
  assert (Hok : forallb (item_ok w) its' = true).
  { rewrite <- (forallb_Permutation _ _ _ Hp). apply (pass_ok w its []). now exists t. }
  apply (pass_ok w its' []) in Hok. destruct Hok as [t' E']. exists t'.
  split; [exact E' |]. intros k.
  assert (Hc : Permutation (contributions w k its) (contributions w k its'))
    by now apply Permutation_flat_map_same.
  destruct (pass_key _ _ _ _ k E) as [Hv Hk].
  destruct (pass_key _ _ _ _ k E') as [Hv' Hk'].
  repeat split; try assumption.
  - rewrite Hk, Hk'. simpl. intros [[] | H]. right. intros Hn.
    rewrite Hn in Hc. apply Permutation_sym, Permutation_nil in Hc. contradiction.
  - rewrite Hk, Hk'. simpl. intros [[] | H]. right. intros Hn.
    rewrite Hn in Hc. apply Permutation_nil in Hc. contradiction.
Qed.


Lemma entry_amounts_tracked (qty_g : float) (k : string) (e : string * nutrient) :
  entry_amounts qty_g k e <> [] -> Spec.tracked k.
Proof.
  unfold entry_amounts.
  destruct (match_key (fst e)) as [k' |] eqn:E; [| congruence].
  destruct (convert_to_mg _ _); [| congruence].
  destruct (String.eqb k' k) eqn:Ek; [| congruence].
  apply String.eqb_eq in Ek. subst k'. intros _.
  now apply match_key_tracked with (raw := fst e).
Qed.

Lemma flat_map_not_nil {A B : Type} (f : A -> list B) (l : list A) :
  flat_map f l <> [] -> exists x, In x l /\ f x <> [].
Proof.
  induction l as [| x l IH]; simpl; [congruence |].
  destruct (f x) eqn:E.
  - intros H. destruct (IH H) as [y [Hy Hf]]. exists y. auto.
  - intros _. exists x. split; [auto | congruence].
Qed.

Lemma contributions_tracked (w : World) (k : string) (its : list json) :
  contributions w k its <> [] -> Spec.tracked k.
Proof.
  intros H. apply flat_map_not_nil in H. destruct H as [it [_ H]].
  unfold item_amounts in H.
  destruct (item_name it); [| congruence].
  destruct (is_empty a || _); [congruence |].
  apply flat_map_not_nil in H. destruct H as [e [_ H]].
  now apply entry_amounts_tracked with (qty_g := item_qty w it) (e := e).
Qed.

(** C7.  After a pass over any [items] in any world, every key of
    [totals_mg] is one of Protein, Vitamin C, Iron, Calcium and Fiber; a
    nutrient whose name matches no trigger leaves [totals_mg] as it is. *)
Theorem totals_keys_tracked (w : World) (items : json) :
  match snd (accumulate w items) with
  | Ok totals_mg => forall k, In k (dict_keys totals_mg) -> Spec.tracked k
  | Raise _ => True
  end /\
  (forall qty_g full_name val unit totals_mg,
      match_key full_name = None ->
      add_to_totals qty_g (full_name, (val, unit)) totals_mg = Ok totals_mg).
Proof.
  split.
  - unfold accumulate. rewrite snd_bind_lift.
    destruct (iterate items) as [its | ex]; [| exact I].
    destruct (snd (for_each_m (add_item w) its [])) as [t |] eqn:E; [| exact I].
    intros k Hk. apply (pass_key _ _ _ _ k) in E. destruct E as [_ E].
    apply E in Hk. destruct Hk as [[] | Hk].
    now apply contributions_tracked with (w := w) (its := its).
  - intros qty_g full_name val unit totals_mg H.
    unfold add_to_totals. now rewrite H.
Qed.

Lemma category_eqb_eq (c c' : Spec.Category) :
  Spec.category_eqb c c' = true <-> c = c'.
Proof.
  unfold Spec.category_eqb. rewrite String.eqb_eq.
  split; [| congruence]. destruct c, c'; simpl; congruence.
Qed.

Lemma agrees_add (t : dict float) (T : Spec.CanonicalTotals) (c : Spec.Category)
  (x : float) :
  agrees t T ->
  agrees (dict_set t (Spec.category_name c)
            (dict_get_default t (Spec.category_name c) 0 + x)%float)
         (Spec.add_to T c x).
Proof.
  intros H c'. unfold Spec.add_to, dict_get_default.
  destruct (Spec.category_eqb c c') eqn:E.
  - apply category_eqb_eq in E. subst c'. rewrite dict_get_set_same.
    now rewrite <- (H c).
  - rewrite dict_get_set_other; [apply H |].
    intros Heq. apply String.eqb_eq in Heq. unfold Spec.category_eqb in E. congruence.
Qed.

Lemma entry_refines (qty_g : float) (e : string * nutrient) (t : dict float)
  (T : Spec.CanonicalTotals) :
  agrees t T ->
  (match snd (snd e) with JStr _ => true | _ => false end) = true ->
  exists t1,
    add_to_totals qty_g e t = Ok t1 /\
    agrees t1 (Spec.accumulate_sample qty_g T (to_sample e)).
Proof.
  intros H Hu. destruct e as [full_name [val unit]]. cbn [fst snd] in Hu.
  destruct unit; try discriminate Hu.
  unfold add_to_totals, Spec.accumulate_sample, to_sample. cbn [fst snd unit_text Spec.nutrientName Spec.amount Spec.unit].
  rewrite match_key_matcher.
  destruct (Spec.key_matcher full_name) as [c |]; cbn [option_map].
  - rewrite convert_to_mg_text. cbn [rbind]. eexists. split; [reflexivity |].
    now apply agrees_add.
  - now exists t.
Qed.

Lemma entries_refine (qty_g : float) (nut : dict nutrient) (t : dict float)
  (T : Spec.CanonicalTotals) :
  agrees t T -> units_are_text nut = true ->
  exists t1,
    for_each (add_to_totals qty_g) nut t = Ok t1 /\
    agrees t1 (fold_left (Spec.accumulate_sample qty_g) (map to_sample nut) T).
Proof.
  revert t T. induction nut as [| e nut IH]; intros t T H Hu; simpl.
  - now exists t.
  - simpl in Hu. apply andb_true_iff in Hu. destruct Hu as [Hu Hrest].
    destruct (entry_refines qty_g e t T H Hu) as [t1 [E H1]].
    rewrite E. cbn [rbind]. now apply IH.
Qed.

Lemma item_name_encode (item : string * float) :
  item_name (encode_item item) = Ok (strip (fst item)).
Proof.
  unfold item_name, encode_item. cbn -[strip py_or]. now rewrite py_or_text.
Qed.

Lemma item_qty_encode (w : World) (item : string * float) :
  item_qty w (encode_item item)
  = if (snd item =? 0)%float then 0%float else snd item.
Proof.
  unfold item_qty, encode_item, float_or_zero, py_or. cbn -[PrimFloat.eqb].
  unfold PyFloat.truthy. now destruct (snd item =? 0)%float.
Qed.

Lemma skip_encode (w : World) (item : string * float) :
  is_empty (strip (fst item)) || (item_qty w (encode_item item) <=? 0)%float
  = skips (read_item item).
Proof.
  unfold skips, read_item. cbn [fst snd]. rewrite item_qty_encode.
  destruct (snd item =? 0)%float eqn:E; [| reflexivity].
  now rewrite (eqb_zero_leb _ E).
Qed.

Lemma samples_of_lookup (w : World) (food : string) :
  match lookup w food with
  | Some l => l
  | None => []
  end = map to_sample (get_food_nutrients w food).
Proof.
  unfold lookup, get_food_nutrients. now destruct (fetch_nutrients w food).
Qed.

(** One item of the pass: what it fetches and what it adds. *)
Lemma item_runs (w : World) (item : string * float) (t : dict float)
  (T : Spec.CanonicalTotals) :
  (forall food, units_are_text (get_food_nutrients w food) = true) ->
  agrees t T ->
  exists t1,
    add_item w (encode_item item) t
    = (if skips (read_item item) then []
       else [CallNutrients (strip (fst item))], Ok t1) /\
    agrees t1
      (if skips (read_item item) then T
       else fold_left (Spec.accumulate_sample (snd item))
              (map to_sample (get_food_nutrients w (strip (fst item)))) T).
Proof.
  intros Hu H. unfold add_item. rewrite item_name_encode. cbn [lift bind].
  rewrite skip_encode.
  pose proof (item_qty_encode w item) as Eq.
  unfold skips, read_item in *. cbn [fst snd] in *.
  destruct (is_empty (strip (fst item)) || (snd item <=? 0)%float) eqn:Es.
  - exists t. split; [reflexivity | exact H].
  - assert (E0 : (snd item =? 0)%float = false).
    { destruct (snd item =? 0)%float eqn:E; [| reflexivity].
      apply orb_false_iff in Es. destruct Es as [_ Es].
      rewrite (eqb_zero_leb _ E) in Es. discriminate. }
    rewrite E0 in Eq. rewrite Eq.
    destruct (entries_refine (snd item) (get_food_nutrients w (strip (fst item))) t T H (Hu _))
      as [t1 [E H1]].
    exists t1. split.
    + cbn [emit bind lift]. rewrite E. reflexivity.
    + exact H1.
Qed.


(** A quantity that is a number is at most zero exactly when it is not
    above zero. *)
Lemma leb_zero_not_above (q : float) :
  is_nan q = false -> (q <=? 0)%float = negb (0 <? q)%float.
Proof.
  unfold is_nan. rewrite eqb_spec, leb_spec, ltb_spec, Prim2SF_zero.
  destruct (Prim2SF q) as [s | s | | s m e]; try destruct s; simpl;
    intros H; try reflexivity; try discriminate H.
  all: rewrite Pos.compare_cont_refl in H;
       rewrite Z.compare_refl in H; discriminate H.
Qed.

Lemma accumulate_item_skipped (f : string -> option (list Spec.NutrientSample))
  (T : Spec.CanonicalTotals) (item : string * float) :
  Spec.accumulate_item f T item
  = if Spec.skipped item then T
    else fold_left (Spec.accumulate_sample (snd item))
           match f (fst item) with Some l => l | None => [] end T.
Proof.
  unfold Spec.accumulate_item, Spec.skipped. destruct item as [name q].
  cbn [fst snd]. destruct (0 <? q)%float, (is_empty name); reflexivity.
Qed.

Lemma item_refines (w : World) (item : string * float) (t : dict float)
  (T : Spec.CanonicalTotals) :
  (forall food, units_are_text (get_food_nutrients w food) = true) ->
  is_nan (snd item) = false ->
  agrees t T ->
  exists t1,
    add_item w (encode_item item) t
    = (if skips (read_item item) then []
       else [CallNutrients (strip (fst item))], Ok t1) /\
    agrees t1 (Spec.accumulate_item (lookup w) T (read_item item)).
Proof.
  intros Hu Hn H. destruct (item_runs w item t T Hu H) as [t1 [E H1]].
  exists t1. split; [exact E |].
  rewrite accumulate_item_skipped.
  assert (Es : Spec.skipped (read_item item) = skips (read_item item)).
  { unfold Spec.skipped, skips, read_item. cbn [fst snd].
    now rewrite (leb_zero_not_above _ Hn). }
  rewrite Es. unfold read_item at 2 3. cbn [fst snd].
  now rewrite samples_of_lookup.
Qed.

Lemma pass_refines (w : World) (items : list (string * float)) (t : dict float)
  (T : Spec.CanonicalTotals) :
  (forall food, units_are_text (get_food_nutrients w food) = true) ->
  forallb (fun item => negb (is_nan (snd item))) items = true ->
  agrees t T ->
  exists t1,
    for_each_m (add_item w) (map encode_item items) t = (fetched items, Ok t1) /\
    agrees t1 (fold_left (Spec.accumulate_item (lookup w)) (map read_item items) T).
Proof.
  intros Hu. revert t T. induction items as [| item items IH]; intros t T Hn H.
  - exists t. split; [reflexivity | exact H].
  - cbn [forallb] in Hn. apply andb_true_iff in Hn. destruct Hn as [Hi Hn].
    apply negb_true_iff in Hi.
    destruct (item_refines w item t T Hu Hi H) as [t1 [E H1]].
    destruct (IH t1 _ Hn H1) as [t2 [E2 H2]].
    exists t2. split; [| exact H2].
    cbn [map for_each_m]. rewrite E. cbn [bind]. rewrite E2.
    unfold fetched. cbn [map filter].
    destruct (skips (read_item item)); reflexivity.
Qed.

(** C1.  An item whose quantity is NaN has a quantity that is not strictly
    positive, so the accumulator of the specification skips it and its
    totals stay zero.  The pass of [analyze] does not skip it, whether the
    quantity comes as the number NaN or as the text [nan]: NaN passes the
    test [qty_g <= 0] of line 283, the food is fetched and the total of
    Protein becomes NaN. *)
Theorem accumulate_nan_quantity :
  accumulate Sample.protein_world (JArr [encode_item ("egg", nan)])
  = ([CallNutrients "egg"], Ok [("Protein", nan)]) /\
  accumulate Sample.nan_text_world
    (JArr [JObj [("name", JStr "egg"); ("qty", JStr "nan")]])
  = ([CallNutrients "egg"], Ok [("Protein", nan)]) /\
  Spec.skipped (read_item ("egg", nan)) = true /\
  (forall c,
      Spec.spec_accumulate (lookup Sample.protein_world) [read_item ("egg", nan)] c
      = 0%float).
Proof.
  split; [vm_compute; reflexivity |]. split; [vm_compute; reflexivity |].
  split; [reflexivity |]. intros c. reflexivity.
Qed.

(** X26.  For every list of (name, qty) items whose quantities are
    numbers (none is NaN) and every per-food lookup whose units are
    strings, the pass of [analyze] over the items returns, without
    raising, the totals of the specification's accumulator: it starts from
    the all-zero total; it skips, with no fetch, every item whose stripped
    name is empty or whose quantity is not strictly positive; for every
    other item it scales each fetched amount by [qty / 100.0], matches the
    nutrient's name and, only when it matches, converts the scaled amount
    to milligrams and adds it to that category's total; and a failed fetch
    gives the empty dictionary, so the item adds nothing and the pass goes
    on. *)
Theorem accumulate_refines_specification (w : World) (items : list (string * float)) :
  (forall food, units_are_text (get_food_nutrients w food) = true) ->
  forallb (fun item => negb (is_nan (snd item))) items = true ->
  (exists totals_mg,
      accumulate w (JArr (map encode_item items))
      = (map (fun item => CallNutrients (fst item))
           (filter (fun item => negb (Spec.skipped item)) (map read_item items)),
         Ok totals_mg) /\
      forall c,
        dict_get_default totals_mg (Spec.category_name c) 0%float
        = Spec.spec_accumulate (lookup w) (map read_item items) c) /\
  (forall food,
      usda_api w food = None -> fetch_nutrients w food = Raise RequestError) /\
  (forall food e,
      fetch_nutrients w food = Raise e ->
      get_food_nutrients w food = [] /\ lookup w food = None).
Proof.
  intros Hu Hn. split; [| split].
  - destruct (pass_refines w items [] Spec.zero_totals Hu Hn) as [t [E H]].
    + intros c. reflexivity.
    + exists t. split; [| exact H]. rewrite accumulate_list, E. f_equal.
      unfold fetched. f_equal. clear E H.
      induction items as [| item items IH]; [reflexivity |].
      cbn [forallb] in Hn. apply andb_true_iff in Hn. destruct Hn as [Hi Hn].
      apply negb_true_iff in Hi. cbn [map filter].
      assert (Es : Spec.skipped (read_item item) = skips (read_item item)).
      { unfold Spec.skipped, skips, read_item. cbn [fst snd].
        now rewrite (leb_zero_not_above _ Hi). }
      rewrite Es, (IH Hn). reflexivity.
  - intros food E. unfold fetch_nutrients. now rewrite E.
  - intros food e E. unfold get_food_nutrients, lookup.
    rewrite E. split; reflexivity.
Qed.

Lemma accumulate_refines_specification_witness :
  (exists totals_mg,
      accumulate Sample.protein_world (JArr (map encode_item Sample.two_eggs))
      = ([CallNutrients "egg"; CallNutrients "egg"], Ok totals_mg) /\
      forall c,
        dict_get_default totals_mg (Spec.category_name c) 0%float
        = Spec.spec_accumulate (lookup Sample.protein_world)
            (map read_item Sample.two_eggs) c).
Proof.
  exact (proj1 (accumulate_refines_specification Sample.protein_world
                  Sample.two_eggs (fun food => eq_refl) eq_refl)).
Defined.

(** The two items of the witness give 10000 + 20000 mg of protein. *)
Lemma two_eggs_protein :
  snd (accumulate Sample.protein_world (JArr (map encode_item Sample.two_eggs)))
  = Ok [("Protein", 30000%float)].
Proof. reflexivity. Qed.

Lemma items_abc_cba : Permutation Sample.items_abc Sample.items_cba.
Proof.
  unfold Sample.items_abc, Sample.items_cba. cbn [map].
  eapply perm_trans; [apply perm_skip, perm_swap |].
  eapply perm_trans; [apply perm_swap |].
  apply perm_skip, perm_swap.
Defined.

(** C8 fails as stated: the foods a, b and c carry 0.1, 0.2 and 0.3 mg of
    iron; in the order a, b, c the total is 0.6000000000000001 and in the
    order c, b, a it is 0.6. *)
Lemma permuted_items_differ :
  Permutation Sample.items_abc Sample.items_cba /\
  snd (accumulate Sample.iron_world (JArr Sample.items_abc))
  = Ok [("Iron", 0.6000000000000001%float)] /\
  snd (accumulate Sample.iron_world (JArr Sample.items_cba))
  = Ok [("Iron", 0.6%float)] /\
  snd (accumulate Sample.iron_world (JArr Sample.items_abc))
  <> snd (accumulate Sample.iron_world (JArr Sample.items_cba)).
Proof.
  split; [exact items_abc_cba |].
  split; [vm_compute; reflexivity |].
  split; [vm_compute; reflexivity |].
  intros H.
  apply (f_equal (fun r => match r with
                           | Ok ((_, x) :: _) => Prim2SF x
                           | _ => S754_nan
                           end)) in H.
  vm_compute in H. discriminate H.
Qed.

Lemma permuted_items_same_summands_witness :
  exists t',
    snd (accumulate Sample.iron_world (JArr Sample.items_cba)) = Ok t' /\
    forall k,
      Permutation (contributions Sample.iron_world k Sample.items_abc)
                  (contributions Sample.iron_world k Sample.items_cba) /\
      dict_get_default [("Iron", 0.6000000000000001%float)] k 0%float
      = float_sum (contributions Sample.iron_world k Sample.items_abc) /\
      dict_get_default t' k 0%float
      = float_sum (contributions Sample.iron_world k Sample.items_cba) /\
      (In k (dict_keys [("Iron", 0.6000000000000001%float)]) <-> In k (dict_keys t')).
Proof.
  exact (permuted_items_same_summands Sample.iron_world Sample.items_abc
           Sample.items_cba _ items_abc_cba eq_refl).
Defined.

End Accumulation.

(* ================================================================== *)
(** * Further properties of the pipeline *)
(* ================================================================== *)

Section MoreRecommendations.

Import PyStr PyVal App Further.
Local Open Scope string_scope.

Lemma fold_left_extend {A B : Type} (f : A -> list B) (l : list A) (acc : list B) :
  fold_left (fun rec n => (rec ++ f n)%list) l acc = (acc ++ flat_map f l)%list.
Proof.
  revert acc. induction l as [| x l IH]; intros acc; simpl.
  - now rewrite app_nil_r.
  - now rewrite IH, app_assoc.
Qed.

Lemma Ok_inj {A : Type} (a b : A) : Ok a = Ok b -> a = b.
Proof. congruence. Qed.

Lemma In_firstn {A : Type} (n : nat) (l : list A) (x : A) :
  In x (firstn n l) -> In x l.
Proof.
  revert l. induction n as [| n IH]; intros [| y l]; simpl; try contradiction.
  intros [H | H]; [now left | right; now apply IH].
Qed.

Lemma recommend_foods_form (defic : dict string) (weather : option (dict json)) :
  recommend_foods defic weather
  = rbind (is_hot weather)
      (fun hot => Ok (firstn 10 (table_entries defic ++ weather_entries hot)%list)).
Proof.
  unfold recommend_foods, table_entries.
  destruct (is_hot weather) as [hot | e]; cbn [rbind]; [| reflexivity].
  destruct hot; cbn [fold_left weather_entries]; rewrite fold_left_extend;
    cbn [app]; now rewrite <- app_assoc.
Qed.

Lemma table_entries_pairs (defic : dict string) (e : food_entry) :
  In e (table_entries defic) ->
  exists k food amount,
    In k (dict_keys defic) /\ In e (dict_get_default base k []) /\ e = [food; amount].
Proof.
  unfold table_entries. rewrite in_flat_map. intros [k [Hk He]].
  assert (Hp : exists food amount, e = [food; amount]).
  { unfold dict_get_default, base in He. cbn in He.
    repeat match type of He with
           | context [if ?b then _ else _] => destruct b
           end;
    cbn in He;
    repeat match type of He with
           | _ \/ _ => destruct He as [He | He]
           | False => contradiction
           | _ = e => subst e; eauto
           end. }
  destruct Hp as [food [amount Hp]]. exists k, food, amount. auto.
Qed.

(** X1.  Every entry [recommend_foods] returns is either a (name, amount)
    pair of the table [base] under a key of the deficiency report, or one
    of the four weather entries; a category that is not in the report
    contributes nothing. *)
Theorem recommend_foods_provenance (defic : dict string) (weather : option (dict json))
  (rec : list food_entry) :
  recommend_foods defic weather = Ok rec ->
  forall e, In e rec ->
    (exists k food amount,
        In k (dict_keys defic) /\ In e (dict_get_default base k []) /\
        e = [food; amount]) \/
    (exists f, In f ["Cucumber"; "Yogurt"; "Soup"; "Eggs"] /\ e = [f; "-"; "-"]).
Proof.
  rewrite recommend_foods_form.
  destruct (is_hot weather) as [hot | ex]; cbn [rbind]; [| discriminate].
  intros H e He. apply Ok_inj in H. subst rec.
  apply In_firstn in He. apply in_app_or in He.
  destruct He as [He | He].
  - left. now apply table_entries_pairs.
  - right. destruct hot; simpl in He;
      destruct He as [<- | [<- | []]]; eexists; (split; [| reflexivity]); simpl; auto.
Qed.

Lemma recommend_foods_provenance_witness :
  (exists k food amount,
      In k (dict_keys [("Iron", "8.0 mg")]) /\
      In ["Liver"; "6.5 mg"] (dict_get_default base k []) /\
      ["Liver"; "6.5 mg"] = [food; amount]) \/
  (exists f, In f ["Cucumber"; "Yogurt"; "Soup"; "Eggs"] /\
             ["Liver"; "6.5 mg"] = [f; "-"; "-"]).
Proof.
  exact (recommend_foods_provenance [("Iron", "8.0 mg")] None _ eq_refl
           ["Liver"; "6.5 mg"] (or_intror (or_introl eq_refl))).
Defined.

Lemma table_entries_length (defic : dict string) :
  Forall Spec.tracked (dict_keys defic) ->
  List.length (table_entries defic) = (3 * List.length (dict_keys defic))%nat.
Proof.
  unfold table_entries. induction (dict_keys defic) as [| k ks IH]; intros H.
  - reflexivity.
  - inversion H as [| ? ? Hk Hks]; subst. cbn [flat_map].
    rewrite length_app, (IH Hks).
    assert (Hl : List.length (dict_get_default base k []) = 3%nat).
    { unfold Spec.tracked in Hk. simpl in Hk.
      destruct Hk as [<- | [<- | [<- | [<- | [<- | []]]]]]; reflexivity. }
    rewrite Hl. cbn [List.length]. lia.
Qed.

(** X2.  For a report whose keys are tracked categories the result has
    [min 10 (3 n + 2)] entries, [n] being the number of keys.  With four
    keys or more the cut at ten leaves table entries only: neither weather
    food is recommended. *)
Theorem recommend_foods_count (defic : dict string) (weather : option (dict json))
  (rec : list food_entry) :
  Forall Spec.tracked (dict_keys defic) ->
  recommend_foods defic weather = Ok rec ->
  List.length rec = Nat.min 10 (3 * List.length (dict_keys defic) + 2) /\
  ((4 <= List.length (dict_keys defic))%nat ->
   rec = firstn 10 (table_entries defic) /\
   forall e, In e rec -> exists food amount, e = [food; amount]).
Proof.
  intros Ht. rewrite recommend_foods_form.
  destruct (is_hot weather) as [hot | ex]; cbn [rbind]; [| discriminate].
  intros H. apply Ok_inj in H. subst rec.
  pose proof (table_entries_length defic Ht) as Hl. split.
  - rewrite length_firstn, length_app, Hl. now destruct hot.
  - intros Hn.
    assert (E : firstn 10 (table_entries defic ++ weather_entries hot)
                = firstn 10 (table_entries defic)).
    { rewrite firstn_app.
      replace (10 - List.length (table_entries defic))%nat with 0%nat by lia.
      cbn [firstn]. now rewrite app_nil_r. }
    rewrite E. split; [reflexivity |].
    intros e He. apply In_firstn in He.
    destruct (table_entries_pairs _ _ He) as [k [food [amount [_ [_ Hp]]]]]. eauto.
Qed.

Lemma four_keys_tracked :
  Forall Spec.tracked
    (dict_keys [("Protein", "50.0 g"); ("Fiber", "30.0 g");
                ("Iron", "8.0 mg"); ("Calcium", "1000.0 mg")]).
Proof.
  unfold Spec.tracked.
  repeat (apply Forall_cons; [simpl; tauto |]). apply Forall_nil.
Defined.

Lemma recommend_foods_count_witness :
  List.length (firstn 10
     (table_entries [("Protein", "50.0 g"); ("Fiber", "30.0 g");
                     ("Iron", "8.0 mg"); ("Calcium", "1000.0 mg")]
      ++ weather_entries true))
  = Nat.min 10 (3 * 4 + 2).
Proof.
  exact (proj1 (recommend_foods_count
                  [("Protein", "50.0 g"); ("Fiber", "30.0 g");
                   ("Iron", "8.0 mg"); ("Calcium", "1000.0 mg")]
                  (Some [("temp", JInt 35)]) _ four_keys_tracked eq_refl)).
Defined.

(** X3.  When the weather key is not set or the weather call fails,
    [get_weather] answers the default (temperature 25) and the weather
    entries of the recommendations are Soup and Eggs. *)
Theorem failed_weather_is_cool (w : World) (city : string) (defic : dict string) :
  WEATHER_API_KEY w = "" \/ weather_api w city = None ->
  get_weather w city = default_weather /\
  recommend_foods defic (Some (get_weather w city))
  = Ok (firstn 10 (table_entries defic ++ [["Soup"; "-"; "-"]; ["Eggs"; "-"; "-"]])).
Proof.
  intros H.
  assert (E : get_weather w city = default_weather).
  { unfold get_weather. destruct H as [H | H]; rewrite H; [reflexivity |].
    now destruct (is_empty (WEATHER_API_KEY w)). }
  split; [exact E |]. rewrite recommend_foods_form, E. reflexivity.
Qed.

Lemma failed_weather_is_cool_witness :
  get_weather Sample.protein_world "Pune" = default_weather /\
  recommend_foods [("Iron", "8.0 mg")] (Some (get_weather Sample.protein_world "Pune"))
  = Ok (firstn 10 (table_entries [("Iron", "8.0 mg")]
                   ++ [["Soup"; "-"; "-"]; ["Eggs"; "-"; "-"]])).
Proof.
  exact (failed_weather_is_cool Sample.protein_world "Pune" [("Iron", "8.0 mg")]
           (or_introl eq_refl)).
Defined.

End MoreRecommendations.

Section MoreDeficiency.

Import PyStr PyVal App Further.
Local Open Scope string_scope.

(** X4.  A report of [calculate_deficiency] holds a category exactly when
    its total is below 60% of the adjusted target, with the shortfall as
    its value; its keys follow the order Protein, Fiber, Vitamin C, Iron,
    Calcium and no other key occurs. *)
Theorem deficiency_report_lines (w : World) (totals : dict float) (gender : json)
  (height_cm weight_kg : float) (report : dict string) :
  calculate_deficiency w totals gender height_cm weight_kg = Ok report ->
  exists b,
    adjusted_baseline w gender height_cm weight_kg = Ok b /\
    dict_get report "Protein"
    = grams_line (dict_get_default totals "Protein" 0%float) (Protein_g b) /\
    dict_get report "Fiber"
    = grams_line (dict_get_default totals "Fiber" 0%float) (Fiber_g b) /\
    dict_get report "Vitamin C"
    = milligrams_line (dict_get_default totals "Vitamin C" 0%float) (Vitamin_C_mg b) /\
    dict_get report "Iron"
    = milligrams_line (dict_get_default totals "Iron" 0%float) (Iron_mg b) /\
    dict_get report "Calcium"
    = milligrams_line (dict_get_default totals "Calcium" 0%float) (Calcium_mg b) /\
    subsequence (dict_keys report) report_order.
Proof.
  unfold calculate_deficiency.
  destruct (adjusted_baseline w gender height_cm weight_kg) as [b | e]; cbn [rbind];
    [| discriminate].
  intros H. apply Ok_inj in H. subst report. exists b. split; [reflexivity |].
  unfold grams_line, milligrams_line, check_grams. cbn [fold_left].
  unfold check_milligrams.
  destruct (_ <? (Protein_g b * 1000) * 0.6)%float;
    destruct (_ <? (Fiber_g b * 1000) * 0.6)%float;
    destruct (_ <? Vitamin_C_mg b * 0.6)%float;
    destruct (_ <? Iron_mg b * 0.6)%float;
    destruct (_ <? Calcium_mg b * 0.6)%float;
    cbn [dict_set dict_get dict_keys map fst String.eqb Ascii.eqb Bool.eqb];
    repeat split; cbn; tauto.
Qed.

Lemma deficiency_report_lines_witness :
  exists b,
    adjusted_baseline Sample.protein_world (JStr "male") 170 65 = Ok b /\
    dict_get [("Fiber", "30.0 g"); ("Vitamin C", "90.0 mg"); ("Calcium", "1000.0 mg")]
      "Protein"
    = grams_line (dict_get_default [("Protein", 30000%float); ("Iron", 4.8%float)]
                    "Protein" 0%float) (Protein_g b) /\
    dict_get [("Fiber", "30.0 g"); ("Vitamin C", "90.0 mg"); ("Calcium", "1000.0 mg")]
      "Fiber"
    = grams_line (dict_get_default [("Protein", 30000%float); ("Iron", 4.8%float)]
                    "Fiber" 0%float) (Fiber_g b) /\
    dict_get [("Fiber", "30.0 g"); ("Vitamin C", "90.0 mg"); ("Calcium", "1000.0 mg")]
      "Vitamin C"
    = milligrams_line (dict_get_default [("Protein", 30000%float); ("Iron", 4.8%float)]
                         "Vitamin C" 0%float) (Vitamin_C_mg b) /\
    dict_get [("Fiber", "30.0 g"); ("Vitamin C", "90.0 mg"); ("Calcium", "1000.0 mg")]
      "Iron"
    = milligrams_line (dict_get_default [("Protein", 30000%float); ("Iron", 4.8%float)]
                         "Iron" 0%float) (Iron_mg b) /\
    dict_get [("Fiber", "30.0 g"); ("Vitamin C", "90.0 mg"); ("Calcium", "1000.0 mg")]
      "Calcium"
    = milligrams_line (dict_get_default [("Protein", 30000%float); ("Iron", 4.8%float)]
                         "Calcium" 0%float) (Calcium_mg b) /\
    subsequence
      (dict_keys [("Fiber", "30.0 g"); ("Vitamin C", "90.0 mg"); ("Calcium", "1000.0 mg")])
      report_order.
Proof.
  exact (deficiency_report_lines Sample.protein_world
           [("Protein", 30000%float); ("Iron", 4.8%float)]
           (JStr "male") 170 65 _ eq_refl).
Defined.




Lemma ltb_zero_truthy_below (bmi : float) :
  (bmi <? 0)%float = true ->
  PyFloat.truthy bmi && (bmi <? 18.5)%float = true.
Proof.
  unfold PyFloat.truthy. rewrite eqb_spec, !ltb_spec, Prim2SF_zero.
  destruct (Prim2SF bmi) as [s | s | | s m e]; try destruct s; simpl;
    intros H; try discriminate H; reflexivity.
Qed.

(** X6.  A BMI below zero (a negative weight) is treated as underweight:
    every target is multiplied by 1.10. *)
Theorem negative_bmi_raises_targets (w : World) (gender : string)
  (height_cm weight_kg bmi : float) :
  body_mass_index w height_cm weight_kg = Ok bmi ->
  (bmi <? 0)%float = true ->
  adjusted_baseline w (JStr gender) height_cm weight_kg
  = Ok (scale_baseline 1.10 (default_baseline (lower gender))).
Proof.
  intros E H. unfold adjusted_baseline. cbn [method_lower rbind].
  rewrite E. cbn [rbind]. unfold adjust_baseline.
  now rewrite (ltb_zero_truthy_below _ H).
Qed.

Lemma negative_bmi_raises_targets_witness :
  body_mass_index Sample.protein_world 170 (-50) = Ok (-17.301038062283737)%float /\
  adjusted_baseline Sample.protein_world (JStr "male") 170 (-50)
  = Ok (scale_baseline 1.10 (default_baseline "male")).
Proof.
  split; [reflexivity |].
  exact (negative_bmi_raises_targets Sample.protein_world "male" 170 (-50) _
           eq_refl eq_refl).
Defined.

End MoreDeficiency.

Section MoreHandler.

Import PyStr PyVal App Shape Further.
Local Open Scope string_scope.

Lemma fst_bind {A B : Type} (m : M A) (f : A -> M B) :
  fst (bind m f)
  = (fst m ++ match snd m with Ok a => fst (f a) | Raise _ => [] end)%list.
Proof.
  destruct m as [t [a | e]]; simpl.
  - now destruct (f a).
  - now rewrite app_nil_r.
Qed.

Lemma bind_lift_ok {A B : Type} (a : A) (f : A -> M B) :
  bind (lift (Ok a)) f = f a.
Proof. unfold lift, bind. now destruct (f a). Qed.


Lemma py_or_object (d : dict json) : py_or (JObj d) (JObj []) = JObj d.
Proof. now destruct d. Qed.


(** X7.  A request whose body is true but no object, or whose [city] is
    true but no string, is not rejected with status 400: [analyze] raises
    [AttributeError], before any external call. *)
Theorem analyze_city_not_text (w : World) :
  (forall body, truthy body = true -> is_object body = false ->
                analyze w body = ([], Raise AttributeError)) /\
  (forall d v, dict_get d "city" = Some v -> truthy v = true -> is_text v = false ->
               analyze w (JObj d) = ([], Raise AttributeError)).
Proof.
  split.
  - intros body Ht Ho. unfold analyze, py_or. rewrite Ht.
    destruct body; try discriminate Ho; reflexivity.
  - intros d v Hc Ht Hs. unfold analyze. rewrite py_or_object.
    unfold get, get_default. rewrite bind_lift_ok.
    unfold dict_get_default at 1. rewrite Hc. unfold py_or. rewrite Ht.
    destruct v; try discriminate Hs; reflexivity.
Qed.

Lemma analyze_city_not_text_witness :
  analyze Sample.protein_world (JObj [("city", JInt 5)]) = ([], Raise AttributeError).
Proof.
  exact (proj2 (analyze_city_not_text Sample.protein_world)
           [("city", JInt 5)] (JInt 5) eq_refl eq_refl eq_refl).
Defined.











End MoreHandler.

Section MorePass.

Import PyStr PyVal App Shape Further.
Local Open Scope string_scope.

Lemma forallb_same {A : Type} (f g : A -> bool) (l : list A) :
  (forall x, f x = g x) -> forallb f l = forallb g l.
Proof.
  intros H. induction l as [| x l IH]; simpl; [reflexivity |].
  now rewrite H, IH.
Qed.

Lemma convert_to_mg_accepts (x : float) (u : json) :
  match convert_to_mg x u with
  | Ok _ => negb (truthy u) || is_text u = true
  | Raise e => e = AttributeError /\ negb (truthy u) || is_text u = false
  end.
Proof.
  unfold convert_to_mg, py_or.
  destruct (truthy u) eqn:Et; cbn [negb orb].
  - destruct u; cbn [method_lower rbind is_text]; auto;
      repeat match goal with
             | |- context [if ?b then _ else _] => destruct b
             end; reflexivity.
  - cbn [method_lower rbind].
    repeat match goal with
           | |- context [if ?b then _ else _] => destruct b
           end; reflexivity.
Qed.

Lemma entry_ok_usable (qty_g : float) (e : string * nutrient) :
  entry_ok qty_g e = entry_usable e.
Proof.
  unfold entry_ok, entry_usable.
  destruct (match_key (fst e)); [| reflexivity].
  pose proof (convert_to_mg_accepts (fst (snd e) * (qty_g / 100))%float (snd (snd e))) as H.
  destruct (convert_to_mg _ _); [now rewrite H | now rewrite (proj2 H)].
Qed.

Lemma item_ok_passes (w : World) (it : json) :
  item_ok w it = item_passes w it.
Proof.
  unfold item_ok, item_passes, item_name, get, get_default.
  destruct it; try reflexivity. cbn [rbind]. unfold py_or.
  destruct (truthy (dict_get_default d "name" JNull)) eqn:Et;
    [| reflexivity].
  destruct (dict_get_default d "name" JNull); try reflexivity.
  cbn [method_strip].
  destruct (is_empty (strip s) || _); [reflexivity |].
  apply forallb_same. intros e. apply entry_ok_usable.
Qed.

Lemma entries_raise_attribute (qty_g : float) (nut : dict nutrient) (t : dict float)
  (e : exn) :
  for_each (add_to_totals qty_g) nut t = Raise e -> e = AttributeError.
Proof.
  revert t. induction nut as [| [full_name [val unit]] nut IH]; intros t; simpl;
    [discriminate |].
  destruct (match_key full_name); cbn [rbind]; [| apply IH].
  pose proof (convert_to_mg_accepts (val * (qty_g / 100))%float unit) as H.
  destruct (convert_to_mg _ unit); cbn [rbind]; [apply IH |].
  intros [= <-]. exact (proj1 H).
Qed.

Lemma item_raises_attribute (w : World) (it : json) (t : dict float) (e : exn) :
  snd (add_item w it t) = Raise e -> e = AttributeError.
Proof.
  unfold add_item. rewrite snd_bind_lift.
  destruct (item_name it) as [name | ex] eqn:En.
  - destruct (is_empty name || _); [discriminate |].
    rewrite snd_bind. cbn [emit snd lift]. apply entries_raise_attribute.
  - intros [= <-]. unfold item_name, get, get_default in En.
    destruct it; try (cbn in En; congruence). cbn [rbind] in En.
    unfold method_strip in En. destruct (py_or _ _); congruence.
Qed.

Lemma pass_raises_attribute (w : World) (its : list json) (t : dict float) (e : exn) :
  snd (for_each_m (add_item w) its t) = Raise e -> e = AttributeError.
Proof.
  revert t. induction its as [| it its IH]; intros t; simpl; [discriminate |].
  rewrite snd_bind. destruct (snd (add_item w it t)) as [t1 | ex] eqn:E.
  - apply IH.
  - intros [= <-]. now apply item_raises_attribute with (w := w) (it := it) (t := t).
Qed.

(** X11.  The pass over a list of items returns exactly when every item
    is an object whose name is false or a string and, unless it is
    skipped, every fetched nutrient that matches a key has a false or a
    string unit; otherwise it raises [AttributeError]. *)
Theorem accumulate_raises_iff (w : World) (its : list json) :
  match snd (accumulate w (JArr its)) with
  | Ok _ => forallb (item_passes w) its = true
  | Raise e => e = AttributeError /\ forallb (item_passes w) its = false
  end.
Proof.
  rewrite accumulate_list.
  rewrite <- (forallb_same (item_ok w) (item_passes w) its (item_ok_passes w)).
  pose proof (pass_ok w its []) as H.
  destruct (snd (for_each_m (add_item w) its [])) as [t | e] eqn:E.
  - apply H. now exists t.
  - split; [now apply pass_raises_attribute with (w := w) (its := its) (t := []) |].
    destruct (forallb (item_ok w) its); [| reflexivity].
    destruct (proj2 H eq_refl) as [t' Ht']. discriminate.
Qed.

(** ** distinct keys and the formatted totals *)

Lemma dict_set_new {V : Type} (d : dict V) (k : string) (v : V) :
  ~ In k (dict_keys d) -> dict_set d k v = (d ++ [(k, v)])%list.
Proof.
  unfold dict_keys. induction d as [| [k' v'] d IH]; simpl; [reflexivity |].
  intros H. destruct (String.eqb k' k) eqn:E.
  - apply String.eqb_eq in E. tauto.
  - now rewrite IH by tauto.
Qed.

Lemma dict_set_keys {V : Type} (d : dict V) (k : string) (v : V) :
  In k (dict_keys d) -> dict_keys (dict_set d k v) = dict_keys d.
Proof.
  unfold dict_keys. induction d as [| [k' v'] d IH]; simpl; [contradiction |].
  destruct (String.eqb k' k) eqn:E; simpl; [reflexivity |].
  apply String.eqb_neq in E. intros [H | H]; [contradiction |]. now rewrite IH.
Qed.

Lemma dict_set_NoDup {V : Type} (d : dict V) (k : string) (v : V) :
  NoDup (dict_keys d) -> NoDup (dict_keys (dict_set d k v)).
Proof.
  intros H. destruct (in_dec string_dec k (dict_keys d)) as [Hin | Hn].
  - now rewrite dict_set_keys.
  - rewrite (dict_set_new d k v Hn). unfold dict_keys in *.
    rewrite map_app. simpl. apply NoDup_app; [assumption | repeat constructor; auto |].
    intros x Hx [<- | []]. contradiction.
Qed.

Lemma entries_NoDup (qty_g : float) (nut : dict nutrient) (t t' : dict float) :
  NoDup (dict_keys t) ->
  for_each (add_to_totals qty_g) nut t = Ok t' -> NoDup (dict_keys t').
Proof.
  revert t. induction nut as [| [full_name [val unit]] nut IH]; intros t Ht; simpl.
  - now intros [= <-].
  - destruct (match_key full_name); cbn [rbind]; [| now apply IH].
    destruct (convert_to_mg _ unit); cbn [rbind]; [| discriminate].
    apply IH. now apply dict_set_NoDup.
Qed.

Lemma pass_NoDup (w : World) (its : list json) (t t' : dict float) :
  NoDup (dict_keys t) ->
  snd (for_each_m (add_item w) its t) = Ok t' -> NoDup (dict_keys t').
Proof.
  revert t. induction its as [| it its IH]; intros t Ht; simpl.
  - now intros [= <-].
  - rewrite snd_bind. destruct (snd (add_item w it t)) as [t1 | ex] eqn:E;
      [| discriminate].
    apply IH. unfold add_item in E. rewrite snd_bind_lift in E.
    destruct (item_name it); [| discriminate].
    destruct (is_empty a || _).
    + now injection E as <-.
    + rewrite snd_bind in E. cbn [emit snd lift] in E.
      now apply entries_NoDup with (qty_g := item_qty w it)
                                  (nut := get_food_nutrients w a) (t := t).
Qed.

Lemma human_totals_from (l acc : dict float) (shown : dict string) :
  NoDup (dict_keys shown ++ dict_keys l) ->
  fold_left
    (fun human '(k, v) =>
       dict_set human k
         (if str_among k ["Protein"; "Fiber"] then show_g (v / 1000)%float
          else show_mg v))
    l shown
  = (shown ++ map show_total l)%list.
Proof.
  revert shown. induction l as [| [k v] l IH]; intros shown H; simpl.
  - now rewrite app_nil_r.
  - simpl in H. pose proof (NoDup_remove_2 _ _ _ H) as Hk.
    rewrite dict_set_new by (intros Hin; apply Hk, in_or_app; auto).
    rewrite IH.
    + now rewrite <- app_assoc.
    + unfold dict_keys in *. rewrite map_app. simpl.
      rewrite <- app_assoc. exact H.
Qed.

(** X12.  The totals of a pass have distinct keys, and [human_totals]
    shows each of them in place: Protein and Fiber divided by 1000 with
    " g", the others with " mg", both rounded to two decimals. *)
Theorem human_totals_of_pass (w : World) (items : json) (totals_mg : dict float) :
  snd (accumulate w items) = Ok totals_mg ->
  NoDup (dict_keys totals_mg) /\
  human_totals totals_mg = map show_total totals_mg.
Proof.
  unfold accumulate. rewrite snd_bind_lift.
  destruct (iterate items) as [its | e]; [| discriminate].
  intros E. assert (Hn : NoDup (dict_keys totals_mg)).
  { apply (pass_NoDup w its [] totals_mg); [constructor | exact E]. }
  split; [exact Hn |].
  unfold human_totals. now rewrite human_totals_from.
Qed.

Lemma human_totals_of_pass_witness :
  NoDup (dict_keys [("Protein", 30000%float)]) /\
  human_totals [("Protein", 30000%float)] = map show_total [("Protein", 30000%float)].
Proof.
  exact (human_totals_of_pass Sample.protein_world
           (JArr (map encode_item Sample.two_eggs)) _ eq_refl).
Defined.

End MorePass.

Section MoreProviders.

Import PyStr PyVal App Shape Further.
Local Open Scope string_scope.

Lemma get_weather_answer (w : World) (city : string) (d cur cond text temp hum : json) :
  WEATHER_API_KEY w <> "" ->
  weather_api w city = Some d ->
  subscript d "current" = Ok cur ->
  subscript cur "condition" = Ok cond ->
  subscript cond "text" = Ok text ->
  subscript cur "temp_c" = Ok temp ->
  subscript cur "humidity" = Ok hum ->
  get_weather w city = [("condition", text); ("temp", temp); ("humidity", hum)].
Proof.
  intros Hk Hd H1 H2 H3 H4 H5. unfold get_weather.
  destruct (WEATHER_API_KEY w); [congruence |]. cbn [is_empty].
  rewrite Hd. cbn [rbind]. rewrite H1. cbn [rbind]. rewrite H2. cbn [rbind].
  rewrite H3. cbn [rbind]. rewrite H4. cbn [rbind]. now rewrite H5.
Qed.

(** X13.  [get_weather] always returns the three keys condition, temp and
    humidity.  It returns the default [{Unknown, 25, 50}] when the key is
    not set, when the call fails, and when the answer lacks [current],
    [current.condition], [current.condition.text], [current.temp_c] or
    [current.humidity]; only a complete answer is passed on, so the result
    is always the default or the three fields of a complete answer. *)
Theorem get_weather_fields (w : World) (city : string) :
  dict_keys (get_weather w city) = ["condition"; "temp"; "humidity"] /\
  (WEATHER_API_KEY w = "" -> get_weather w city = default_weather) /\
  (weather_api w city = None -> get_weather w city = default_weather) /\
  (forall d cur cond text temp hum,
      WEATHER_API_KEY w <> "" ->
      weather_api w city = Some d ->
      subscript d "current" = Ok cur ->
      subscript cur "condition" = Ok cond ->
      subscript cond "text" = Ok text ->
      subscript cur "temp_c" = Ok temp ->
      subscript cur "humidity" = Ok hum ->
      get_weather w city = [("condition", text); ("temp", temp); ("humidity", hum)]) /\
  (forall d e,
      weather_api w city = Some d ->
      subscript d "current" = Raise e ->
      get_weather w city = default_weather) /\
  (forall d cur e,
      weather_api w city = Some d ->
      subscript d "current" = Ok cur ->
      subscript cur "condition" = Raise e \/
      subscript cur "temp_c" = Raise e \/
      subscript cur "humidity" = Raise e ->
      get_weather w city = default_weather) /\
  (forall d cur cond e,
      weather_api w city = Some d ->
      subscript d "current" = Ok cur ->
      subscript cur "condition" = Ok cond ->
      subscript cond "text" = Raise e ->
      get_weather w city = default_weather) /\
  (get_weather w city = default_weather \/
   exists d cur cond text temp hum,
     WEATHER_API_KEY w <> "" /\
     weather_api w city = Some d /\
     subscript d "current" = Ok cur /\
     subscript cur "condition" = Ok cond /\
     subscript cond "text" = Ok text /\
     subscript cur "temp_c" = Ok temp /\
     subscript cur "humidity" = Ok hum /\
     get_weather w city = [("condition", text); ("temp", temp); ("humidity", hum)]).
Proof.
  unfold get_weather.
  destruct (is_empty (WEATHER_API_KEY w)) eqn:Ek.
  - repeat split; try reflexivity; try (now left).
    intros d cur cond text temp hum Hk.
    destruct (WEATHER_API_KEY w); [congruence | discriminate].
  - assert (Hk : WEATHER_API_KEY w <> "") by (intros E; rewrite E in Ek; discriminate).
    split; [| split; [| split; [| split; [| split; [| split; [| split]]]]]].
    + destruct (weather_api w city) as [d |]; [| reflexivity]. cbn [rbind].
      destruct (subscript d "current") as [cur |]; [| reflexivity]. cbn [rbind].
      destruct (subscript cur "condition") as [cond |]; [| reflexivity]. cbn [rbind].
      destruct (subscript cond "text"); [| reflexivity]. cbn [rbind].
      destruct (subscript cur "temp_c"); [| reflexivity]. cbn [rbind].
      destruct (subscript cur "humidity"); reflexivity.
    + intros H. contradiction.
    + intros H. now rewrite H.
    + intros d cur cond text temp hum _ Hd H1 H2 H3 H4 H5.
      rewrite Hd. cbn [rbind]. rewrite H1. cbn [rbind]. rewrite H2. cbn [rbind].
      rewrite H3. cbn [rbind]. rewrite H4. cbn [rbind]. now rewrite H5.
    + intros d e Hd Hc. rewrite Hd. cbn [rbind]. now rewrite Hc.
    + intros d cur e Hd Hc H. rewrite Hd. cbn [rbind]. rewrite Hc. cbn [rbind].
      destruct (subscript cur "condition") as [cond |] eqn:E1; [| reflexivity].
      cbn [rbind].
      destruct (subscript cond "text"); [| reflexivity]. cbn [rbind].
      destruct (subscript cur "temp_c") eqn:E2; [| reflexivity]. cbn [rbind].
      destruct (subscript cur "humidity") eqn:E3; [| reflexivity].
      destruct H as [H | [H | H]]; discriminate H.
    + intros d cur cond e Hd Hc H1 H2. rewrite Hd. cbn [rbind]. rewrite Hc.
      cbn [rbind]. rewrite H1. cbn [rbind]. now rewrite H2.
    + destruct (weather_api w city) as [d |]; [| now left]. cbn [rbind].
      destruct (subscript d "current") as [cur |] eqn:E0; [| now left]. cbn [rbind].
      destruct (subscript cur "condition") as [cond |] eqn:E1; [| now left].
      cbn [rbind].
      destruct (subscript cond "text") as [text |] eqn:E2; [| now left]. cbn [rbind].
      destruct (subscript cur "temp_c") as [temp |] eqn:E3; [| now left]. cbn [rbind].
      destruct (subscript cur "humidity") as [hum |] eqn:E4; [| now left].
      right. exists d, cur, cond, text, temp, hum. cbn [rbind]. now repeat split.
Qed.

(** An answer that has everything but the humidity. *)
Lemma get_weather_partial_answer :
  get_weather
    {| WEATHER_API_KEY := "key";
       weather_api := fun _ =>
         Some (JObj [("current",
                      JObj [("condition", JObj [("text", JStr "Sunny")]);
                            ("temp_c", JFloat 35)])]);
       usda_api := fun _ => None;
       float_of_str := fun _ => None;
       libm_pow2 := PyFloat.rounded_square |}
    "Pune"
  = default_weather.
Proof. reflexivity. Qed.

(** ** [get_food_nutrients] *)

Lemma add_nutrient_object (w : World) (dn : dict json) (nutrients : dict nutrient) :
  exists nutrients',
    add_nutrient w (JObj dn) nutrients = Ok nutrients' /\
    forall k, In k (dict_keys nutrients') ->
              In k (dict_keys nutrients) \/
              exists s, entry_name dn = JStr s /\ k = strip s.
Proof.
  unfold add_nutrient, get, get_default. cbn [rbind]. fold (entry_name dn).
  destruct (truthy (entry_name dn) && negb (is_none (dict_get_default dn "value" JNull)));
    [| exists nutrients; auto].
  destruct (py_float w (dict_get_default dn "value" JNull)) as [x | e];
    [| exists nutrients; auto].
  destruct (entry_name dn) as [| | | | s | |] eqn:En; cbn [method_strip];
    try (exists nutrients; auto; fail).
  eexists. split; [reflexivity |].
  intros k Hk. apply dict_keys_set in Hk. destruct Hk as [-> | Hk]; eauto.
Qed.

Lemma add_nutrient_not_object (w : World) (n : json) (nutrients : dict nutrient) :
  is_object n = false -> add_nutrient w n nutrients = Raise AttributeError.
Proof. destruct n; try discriminate; reflexivity. Qed.

Lemma collect_objects (w : World) (l : list json) (nutrients : dict nutrient) :
  forallb is_object l = true ->
  exists nutrients',
    for_each (add_nutrient w) l nutrients = Ok nutrients' /\
    forall k, In k (dict_keys nutrients') ->
              In k (dict_keys nutrients) \/
              exists dn s, In (JObj dn) l /\ entry_name dn = JStr s /\ k = strip s.
Proof.
  revert nutrients. induction l as [| n l IH]; intros nutrients H; simpl.
  - exists nutrients. auto.
  - simpl in H. apply andb_true_iff in H. destruct H as [Hn Hl].
    destruct n; try discriminate Hn.
    destruct (add_nutrient_object w d nutrients) as [n1 [E1 H1]].
    rewrite E1. cbn [rbind].
    destruct (IH n1 Hl) as [n2 [E2 H2]]. exists n2. split; [exact E2 |].
    intros k Hk. destruct (H2 k Hk) as [Hin | [dn [s [Hin [Hs Hk']]]]].
    + destruct (H1 k Hin) as [Hin' | [s [Hs Hk']]]; [auto |].
      right. exists d, s. auto.
    + right. exists dn, s. auto.
Qed.

Lemma collect_not_object (w : World) (l : list json) (nutrients : dict nutrient) :
  forallb is_object l = false ->
  for_each (add_nutrient w) l nutrients = Raise AttributeError.
Proof.
  revert nutrients. induction l as [| n l IH]; intros nutrients H; simpl;
    [discriminate |].
  simpl in H. destruct (is_object n) eqn:En.
  - destruct n; try discriminate En.
    destruct (add_nutrient_object w d nutrients) as [n1 [E1 _]].
    rewrite E1. cbn [rbind]. now apply IH.
  - now rewrite add_nutrient_not_object.
Qed.

(** X14.  For an answer whose first food lists its nutrients: if one
    element of the list is not an object, [get_food_nutrients] returns
    [{}] and the entries read before it are lost; if all are objects the
    fetch succeeds and every key is the stripped name of some entry. *)
Theorem get_food_nutrients_all_or_nothing (w : World) (food : string)
  (data fd : dict json) (rest l : list json) :
  usda_api w food = Some (JObj data) ->
  dict_get data "foods" = Some (JArr (JObj fd :: rest)) ->
  dict_get fd "foodNutrients" = Some (JArr l) ->
  (forallb is_object l = false -> get_food_nutrients w food = []) /\
  (forallb is_object l = true ->
   fetch_nutrients w food = Ok (get_food_nutrients w food) /\
   forall k, In k (dict_keys (get_food_nutrients w food)) ->
             exists dn s, In (JObj dn) l /\ entry_name dn = JStr s /\ k = strip s).
Proof.
  intros Hu Hf Hl.
  assert (E : fetch_nutrients w food = for_each (add_nutrient w) l []).
  { unfold fetch_nutrients. rewrite Hu. cbn [rbind get_default].
    unfold dict_get_default. rewrite Hf. cbn [truthy negb first_item rbind get_default].
    unfold dict_get_default. rewrite Hl. reflexivity. }
  unfold get_food_nutrients. rewrite E. split; intros H.
  - now rewrite collect_not_object.
  - destruct (collect_objects w l [] H) as [nut [En Hk]]. rewrite En.
    split; [reflexivity |].
    intros k Hin. destruct (Hk k Hin) as [[] | Hx]. exact Hx.
Qed.


Lemma get_food_nutrients_all_or_nothing_witness :
  get_food_nutrients broken_world "egg" = [].
Proof.
  exact (proj1 (get_food_nutrients_all_or_nothing broken_world "egg"
                  _ _ _ _ eq_refl eq_refl eq_refl) eq_refl).
Defined.

(** X15.  The temperature of a complete provider answer is passed on
    unchecked: when it is no number (a string, [null], a list, an object)
    [recommend_foods] raises [TypeError]. *)
Theorem provider_temperature_unchecked (w : World) (city : string)
  (d cur cond text temp hum : json) (defic : dict string) :
  WEATHER_API_KEY w <> "" ->
  weather_api w city = Some d ->
  subscript d "current" = Ok cur ->
  subscript cur "condition" = Ok cond ->
  subscript cond "text" = Ok text ->
  subscript cur "temp_c" = Ok temp ->
  subscript cur "humidity" = Ok hum ->
  recommend_foods defic (Some (get_weather w city))
  = if comparable temp
    then recommend_foods defic (Some [("temp", temp)])
    else Raise TypeError.
Proof.
  intros Hk Hd H1 H2 H3 H4 H5.
  rewrite (get_weather_answer w city d cur cond text temp hum Hk Hd H1 H2 H3 H4 H5).
  rewrite !recommend_foods_form. unfold is_hot.
  cbn [dict_get_default dict_get String.eqb Ascii.eqb Bool.eqb].
  destruct temp; reflexivity.
Qed.

Lemma provider_temperature_unchecked_witness :
  recommend_foods [("Iron", "8.0 mg")] (Some (get_weather text_temp_world "Pune"))
  = Raise TypeError.
Proof.
  refine (provider_temperature_unchecked text_temp_world "Pune"
           _ _ _ _ (JStr "35") _ [("Iron", "8.0 mg")] _ eq_refl eq_refl eq_refl
           eq_refl eq_refl eq_refl).
  discriminate.
Defined.

End MoreProviders.

Section NotANumber.

Import PyStr PyVal App Shape Further.
Local Open Scope string_scope.

Lemma is_nan_Prim2SF (x : float) :
  is_nan x = true <-> Prim2SF x = S754_nan.
Proof.
  unfold Prim2SF. destruct (is_nan x); [tauto |].
  split; [discriminate |].
  destruct (is_zero x); [discriminate |].
  destruct (is_infinity x); [discriminate |].
  destruct (Z.frexp x) as [r ex].
  destruct (shr_fexp _ _ _ _ _) as [shr e'].
  destruct (shr_m shr); discriminate.
Qed.

Lemma nan_div (q d : float) : is_nan q = true -> is_nan (q / d) = true.
Proof.
  rewrite !is_nan_Prim2SF, div_spec. intros ->. reflexivity.
Qed.

Lemma nan_mul_r (x y : float) : is_nan y = true -> is_nan (x * y) = true.
Proof.
  rewrite !is_nan_Prim2SF, mul_spec. intros ->.
  unfold SF64mul, SFmul. now destruct (Prim2SF x).
Qed.

Lemma nan_mul_l (x y : float) : is_nan x = true -> is_nan (x * y) = true.
Proof.
  rewrite !is_nan_Prim2SF, mul_spec. intros ->. reflexivity.
Qed.

Lemma nan_add_r (x y : float) : is_nan y = true -> is_nan (x + y) = true.
Proof.
  rewrite !is_nan_Prim2SF, add_spec. intros ->.
  unfold SF64add, SFadd. now destruct (Prim2SF x).
Qed.

Lemma nan_add_l (x y : float) : is_nan x = true -> is_nan (x + y) = true.
Proof.
  rewrite !is_nan_Prim2SF, add_spec. intros ->. reflexivity.
Qed.

Lemma nan_not_skipped (q : float) :
  is_nan q = true -> (q =? 0)%float = false /\ (q <=? 0)%float = false.
Proof.
  rewrite is_nan_Prim2SF, eqb_spec, leb_spec. intros ->. split; reflexivity.
Qed.

Lemma nan_sum (l : list float) (x : float) :
  Forall (fun y => is_nan y = true) l ->
  is_nan x = true \/ l <> [] ->
  is_nan (fold_left PrimFloat.add l x) = true.
Proof.
  revert x. induction l as [| y l IH]; intros x Hl H; simpl.
  - destruct H as [H | H]; [exact H | congruence].
  - inversion Hl as [| ? ? Hy Hl']; subst. apply IH; [assumption |].
    left. now apply nan_add_r.
Qed.

Lemma entry_amounts_nan (q : float) (k : string) (e : string * nutrient) :
  is_nan q = true -> Forall (fun y => is_nan y = true) (entry_amounts q k e).
Proof.
  intros Hq. unfold entry_amounts, convert_to_mg.
  destruct (match_key (fst e)); [| constructor].
  destruct (method_lower _); cbn [rbind]; [| constructor].
  assert (Hx : is_nan (fst (snd e) * (q / 100))%float = true)
    by now apply nan_mul_r, nan_div.
  repeat match goal with
         | |- context [if ?b then _ else _] => destruct b
         end;
    repeat constructor; try assumption; now apply nan_mul_l.
Qed.

(** X16.  An item whose quantity is NaN is not skipped: its food is
    fetched, and every total it adds to becomes NaN. *)
Theorem nan_quantity_is_processed (w : World) (name : string) (q : float)
  (t : dict float) :
  is_nan q = true ->
  is_empty (strip name) = false ->
  fst (add_item w (encode_item (name, q)) t) = [CallNutrients (strip name)] /\
  forall t' k,
    snd (add_item w (encode_item (name, q)) t) = Ok t' ->
    item_amounts w k (encode_item (name, q)) <> [] ->
    is_nan (dict_get_default t' k 0%float) = true.
Proof.
  intros Hq Hn. destruct (nan_not_skipped q Hq) as [Hz Hle].
  assert (Eq : item_qty w (encode_item (name, q)) = q).
  { rewrite item_qty_encode. cbn [snd]. now rewrite Hz. }
  split.
  - unfold add_item. rewrite item_name_encode. cbn [fst]. rewrite bind_lift_ok.
    rewrite Eq, Hn, Hle. cbn [orb]. rewrite fst_bind. cbn [emit fst snd app lift].
    reflexivity.
  - intros t' k E Hk. destruct (add_item_key w _ t t' k E) as [Hv _].
    rewrite Hv. apply nan_sum; [| right; exact Hk].
    unfold item_amounts. rewrite item_name_encode. cbn [fst].
    rewrite Eq, Hn, Hle. cbn [orb].
    apply Forall_flat_map. apply Forall_forall. intros e _.
    now apply entry_amounts_nan.
Qed.

Lemma nan_quantity_is_processed_witness :
  fst (add_item Sample.protein_world (encode_item ("egg", nan)) [])
  = [CallNutrients "egg"] /\
  forall t' k,
    snd (add_item Sample.protein_world (encode_item ("egg", nan)) []) = Ok t' ->
    item_amounts Sample.protein_world k (encode_item ("egg", nan)) <> [] ->
    is_nan (dict_get_default t' k 0%float) = true.
Proof.
  exact (nan_quantity_is_processed Sample.protein_world "egg" nan [] eq_refl eq_refl).
Defined.

End NotANumber.


(* ================================================================== *)
(** * The chat handler *)
(* ================================================================== *)

Section ChatHandler.

Import PyStr PyVal App Further Groq.
Local Open Scope string_scope.

Lemma is_empty_false (s : string) : s <> "" -> is_empty s = false.
Proof. now destruct s. Qed.

Lemma is_empty_true (s : string) : is_empty s = true -> s = "".
Proof. now destruct s. Qed.

Lemma chat_completion_configured (g : GroqWorld) :
  chat_completion g <> KeyNotConfigured.
Proof.
  unfold chat_completion.
  destruct (post_chat g) as [result | |]; try discriminate.
  destruct (attempt _ _); discriminate.
Qed.

Lemma call_groq_chat_cases (g : GroqWorld) (message analysis lang : json) :
  GROQ_API_KEY g <> "" ->
  call_groq_chat g message analysis lang = (true, inr (chat_completion g)) \/
  exists c, call_groq_chat g message analysis lang = (false, inl c).
Proof.
  intros Hk. unfold call_groq_chat. rewrite (is_empty_false _ Hk).
  destruct (if truthy analysis then check_dict analysis else inr tt) as [c | []].
  - right. now exists c.
  - destruct (if truthy analysis then read_analysis analysis else inr tt) as [c | []].
    + right. now exists c.
    + now left.
Qed.

(** X17.  [chat] answers with status 200 and [ok] true exactly when it has
    called the completion service, and its reply is then what lines 206-245
    make of the outcome: a failure of the service or a malformed answer is
    reported as a reply text, never as an error status.  The statuses 400
    and 500 are decided before any call, and the key-missing text of
    [call_groq_chat] is never a reply of [chat]. *)
Theorem chat_reply_iff_called (g : GroqWorld) (body : json) :
  match snd (chat g body) with
  | ChatReply r =>
      fst (chat g body) = true /\ r = chat_completion g /\ r <> KeyNotConfigured
  | _ => fst (chat g body) = false
  end.
Proof.
  unfold chat.
  destruct (py_or body (JObj [])) as [| b | z | x | s | l | d]; try reflexivity.
  destruct (negb (truthy (dict_get_default d "message" JNull))); [reflexivity |].
  destruct (is_empty (GROQ_API_KEY g)) eqn:Hk; [reflexivity |].
  assert (Hk' : GROQ_API_KEY g <> "") by (intros E; rewrite E in Hk; discriminate).
  destruct (call_groq_chat_cases g (dict_get_default d "message" JNull)
              (py_or (dict_get_default d "analysis_data" JNull) (JObj []))
              (dict_get_default d "lang" (JStr "en")) Hk') as [E | [c E]];
    rewrite E; cbn [fst snd].
  - repeat split. apply chat_completion_configured.
  - reflexivity.
Qed.

Lemma read_field_ok (v : json) :
  negb (truthy v) || is_object v = true ->
  read_total_nutrients v = inr tt /\ read_deficient v = inr tt /\ read_weather v = inr tt.
Proof.
  unfold read_total_nutrients, read_deficient, read_weather. intros H.
  destruct (truthy v) eqn:T; [| now repeat split].
  cbn [negb orb] in H. destruct v; try discriminate H. now repeat split.
Qed.

Lemma read_field_fails (v : json) :
  negb (truthy v) || is_object v = false ->
  read_total_nutrients v = inl (Python AttributeError) /\
  (read_deficient v = inl (Python AttributeError) \/
   read_deficient v = inl (Python TypeError)) /\
  read_weather v = inl (Python AttributeError).
Proof.
  unfold read_total_nutrients, read_deficient, read_weather. intros H.
  destruct (truthy v) eqn:T; [| discriminate H].
  cbn [negb orb] in H.
  destruct v; try discriminate H; cbn [check_len check_dict attempt];
    repeat split; (now left) || (now right).
Qed.

Lemma read_analysis_ok (a : dict json) :
  field_ok a "total_nutrients" && field_ok a "deficient" && field_ok a "weather" = true ->
  read_analysis (JObj a) = inr tt.
Proof.
  unfold field_ok, read_analysis, get, get_default. cbn [raised attempt].
  intros H. apply andb_true_iff in H. destruct H as [H H3].
  apply andb_true_iff in H. destruct H as [H1 H2].
  destruct (read_field_ok _ H1) as [E1 _]. destruct (read_field_ok _ H2) as [_ [E2 _]].
  destruct (read_field_ok _ H3) as [_ [_ E3]].
  rewrite E1. cbn [attempt]. rewrite E2. cbn [attempt]. exact E3.
Qed.

Lemma read_analysis_fails (a : dict json) :
  field_ok a "total_nutrients" && field_ok a "deficient" && field_ok a "weather" = false ->
  read_analysis (JObj a) = inl (Python AttributeError) \/
  read_analysis (JObj a) = inl (Python TypeError).
Proof.
  unfold field_ok, read_analysis, get, get_default. cbn [raised attempt].
  intros H.
  destruct (negb (truthy (dict_get_default a "total_nutrients" JNull))
            || is_object (dict_get_default a "total_nutrients" JNull)) eqn:H1.
  - destruct (read_field_ok _ H1) as [E1 _]. rewrite E1. cbn [attempt].
    destruct (negb (truthy (dict_get_default a "deficient" JNull))
              || is_object (dict_get_default a "deficient" JNull)) eqn:H2.
    + destruct (read_field_ok _ H2) as [_ [E2 _]]. rewrite E2. cbn [attempt].
      cbn [andb] in H. destruct (read_field_fails _ H) as [_ [_ E3]]. now left.
    + destruct (read_field_fails _ H2) as [_ [[E2 | E2] _]]; rewrite E2; cbn [attempt];
        [now left | now right].
  - destruct (read_field_fails _ H1) as [E1 _]. rewrite E1. now left.
Qed.

Lemma call_groq_chat_analysis (g : GroqWorld) (message analysis_data lang : json) :
  GROQ_API_KEY g <> "" ->
  if analysis_ok analysis_data
  then call_groq_chat g message (py_or analysis_data (JObj [])) lang
       = (true, inr (chat_completion g))
  else call_groq_chat g message (py_or analysis_data (JObj [])) lang
       = (false, inl (Python AttributeError)) \/
       call_groq_chat g message (py_or analysis_data (JObj [])) lang
       = (false, inl (Python TypeError)).
Proof.
  intros Hk. unfold analysis_ok, py_or, call_groq_chat.
  rewrite (is_empty_false _ Hk).
  destruct (truthy analysis_data) eqn:T; cbn [negb orb]; [| reflexivity].
  rewrite T.
  destruct analysis_data as [| b | z | x | s | l | a]; cbn [check_dict];
    try (now left).
  destruct (field_ok a "total_nutrients" && field_ok a "deficient" && field_ok a "weather")
    eqn:F.
  - now rewrite (read_analysis_ok a F).
  - destruct (read_analysis_fails a F) as [E | E]; rewrite E; [now left | now right].
Qed.

(** X18.  With the key set and a message that is true, [chat] goes on to
    the completion service exactly when [analysis_data] is false or an
    object whose fields [total_nutrients], [deficient] and [weather] are
    each false or an object; otherwise it answers status 500 with an
    [AttributeError] or a [TypeError], and makes no call. *)
Theorem chat_analysis_data (g : GroqWorld) (d : dict json) :
  GROQ_API_KEY g <> "" ->
  truthy (dict_get_default d "message" JNull) = true ->
  if analysis_ok (dict_get_default d "analysis_data" JNull)
  then chat g (JObj d) = (true, ChatReply (chat_completion g))
  else chat g (JObj d) = (false, ChatFailed (Python AttributeError)) \/
       chat g (JObj d) = (false, ChatFailed (Python TypeError)).
Proof.
  intros Hk Hm. unfold chat. rewrite py_or_object, Hm, (is_empty_false _ Hk).
  cbn [negb].
  pose proof (call_groq_chat_analysis g (dict_get_default d "message" JNull)
                (dict_get_default d "analysis_data" JNull)
                (dict_get_default d "lang" (JStr "en")) Hk) as H.
  destruct (analysis_ok (dict_get_default d "analysis_data" JNull)).
  - now rewrite H.
  - destruct H as [H | H]; rewrite H; [now left | now right].
Qed.

Lemma chat_analysis_data_witness :
  chat (sample_groq RequestException)
    (JObj [("message", JStr "hello"); ("analysis_data", JObj [("deficient", JArr [JStr "Iron"])])])
  = (false, ChatFailed (Python AttributeError)) \/
  chat (sample_groq RequestException)
    (JObj [("message", JStr "hello"); ("analysis_data", JObj [("deficient", JArr [JStr "Iron"])])])
  = (false, ChatFailed (Python TypeError)).
Proof.
  apply (chat_analysis_data (sample_groq RequestException)
           [("message", JStr "hello");
            ("analysis_data", JObj [("deficient", JArr [JStr "Iron"])])]).
  - discriminate.
  - reflexivity.
Defined.

Lemma report_json_ok (r : report) : analysis_ok (report_json r) = true.
Proof.
  unfold analysis_ok, report_json, field_ok. cbn. now rewrite !orb_true_r.
Qed.

(** X19.  Every answer of [analyze], sent back as [analysis_data] with a
    message, is accepted by [chat]: the completion service is called and
    the status is 200, whatever the report holds. *)
Theorem chat_accepts_report (g : GroqWorld) (d : dict json) (message : json) (r : report) :
  GROQ_API_KEY g <> "" ->
  dict_get d "message" = Some message ->
  truthy message = true ->
  dict_get d "analysis_data" = Some (report_json r) ->
  chat g (JObj d) = (true, ChatReply (chat_completion g)).
Proof.
  intros Hk Hm Ht Ha.
  assert (E1 : dict_get_default d "message" JNull = message)
    by (unfold dict_get_default; now rewrite Hm).
  assert (E2 : dict_get_default d "analysis_data" JNull = report_json r)
    by (unfold dict_get_default; now rewrite Ha).
  unfold chat. rewrite py_or_object, E1, E2, Ht, (is_empty_false _ Hk).
  cbn [negb].
  pose proof (call_groq_chat_analysis g message (report_json r)
                (dict_get_default d "lang" (JStr "en")) Hk) as H.
  rewrite report_json_ok in H. now rewrite H.
Qed.

Lemma chat_accepts_report_witness :
  chat (sample_groq (Answered (completion (JStr "Eat lentils."))))
    (JObj [("message", JStr "What should I eat?");
           ("analysis_data",
            report_json {| weather := default_weather;
                           total_nutrients := [];
                           deficient := [("Iron", "8.0 mg")];
                           recommendations := [["Spinach"; "100g"]] |})])
  = (true, ChatReply (Content (JStr "Eat lentils."))).
Proof.
  exact (chat_accepts_report (sample_groq (Answered (completion (JStr "Eat lentils."))))
           [("message", JStr "What should I eat?");
            ("analysis_data",
             report_json {| weather := default_weather;
                            total_nutrients := [];
                            deficient := [("Iron", "8.0 mg")];
                            recommendations := [["Spinach"; "100g"]] |})]
           (JStr "What should I eat?") _
           ltac:(discriminate) eq_refl eq_refl eq_refl).
Defined.

Lemma chat_completion_content (g : GroqWorld) (v : json) :
  chat_completion g = Content v <->
  exists result,
    post_chat g = Answered result /\ message_content result = inr v /\
    is_text v || is_list v = true.
Proof.
  unfold chat_completion. split.
  - destruct (post_chat g) as [result | |]; try discriminate.
    destruct (message_content result) as [c | content] eqn:E; cbn [attempt];
      [discriminate |].
    destruct content; cbn [check_len check_slice attempt]; try discriminate;
      intros [= <-]; exists result; now repeat split.
  - intros [result [-> [-> H]]]. cbn [attempt].
    destruct v; try discriminate H; reflexivity.
Qed.

Lemma call_groq_chat_called (g : GroqWorld) (message analysis lang : json) :
  fst (call_groq_chat g message analysis lang) = true ->
  snd (call_groq_chat g message analysis lang) = inr (chat_completion g).
Proof.
  unfold call_groq_chat.
  destruct (if truthy analysis then check_dict analysis else inr tt) as [c | []];
    cbn [fst snd]; [discriminate |].
  destruct (is_empty (GROQ_API_KEY g)); cbn [fst snd]; [discriminate |].
  destruct (if truthy analysis then read_analysis analysis else inr tt) as [c | []];
    cbn [fst snd]; [discriminate | reflexivity].
Qed.

(** X20.  A reply of [call_groq_chat] is the content of the answer exactly
    when the service was called and answered, the answer has the path
    [choices[0].message.content] and the content is a string or a list; it
    is then returned as it is.  Once the service is called, every other
    outcome is an apology: the one for a connection error when the request
    raises an exception of [requests], and the one for an unexpected error,
    with the text of the exception, when the request raises something else,
    when the path is missing (a [KeyError] without [choices], an
    [IndexError] for an empty [choices]), and when the content is [null],
    a number, a boolean or an object. *)
Theorem call_groq_chat_content (g : GroqWorld) (message analysis lang : json) :
  (forall v,
      snd (call_groq_chat g message analysis lang) = inr (Content v) <->
      fst (call_groq_chat g message analysis lang) = true /\
      exists result,
        post_chat g = Answered result /\ message_content result = inr v /\
        is_text v || is_list v = true) /\
  (fst (call_groq_chat g message analysis lang) = true ->
   snd (call_groq_chat g message analysis lang)
   = inr match post_chat g with
         | RequestException => SorryConnection
         | OtherException => SorryUnexpected ProviderOther
         | Answered result =>
             match message_content result with
             | inl c => SorryUnexpected c
             | inr v =>
                 if is_text v || is_list v then Content v
                 else SorryUnexpected
                        (if is_object v then SliceOfDict else Python TypeError)
             end
         end) /\
  (forall d,
      dict_get d "choices" = None ->
      message_content (JObj d) = inl (Python KeyError)) /\
  (forall d,
      dict_get d "choices" = Some (JArr []) ->
      message_content (JObj d) = inl IndexError).
Proof.
  split; [| split; [| split]].
  - intros v. rewrite <- chat_completion_content. unfold call_groq_chat.
    destruct (if truthy analysis then check_dict analysis else inr tt) as [c | []];
      cbn [fst snd].
    + split; [discriminate | intros [H _]; discriminate].
    + destruct (is_empty (GROQ_API_KEY g)); cbn [fst snd].
      * split; [discriminate | intros [H _]; discriminate].
      * destruct (if truthy analysis then read_analysis analysis else inr tt)
          as [c | []]; cbn [fst snd].
        -- split; [discriminate | intros [H _]; discriminate].
        -- split; [intros [= H]; now split | intros [_ H]; now rewrite H].
  - intros H. rewrite (call_groq_chat_called _ _ _ _ H). f_equal.
    unfold chat_completion.
    destruct (post_chat g) as [result | |]; try reflexivity.
    destruct (message_content result) as [c | v]; cbn [attempt]; [reflexivity |].
    now destruct v.
  - intros d H. unfold message_content, subscript. now rewrite H.
  - intros d H. unfold message_content, subscript. now rewrite H.
Qed.

End ChatHandler.

(* ================================================================== *)
(** * The grocery-list handler *)
(* ================================================================== *)

Section Fences.

Import PyStr PyVal App Further Groq.
Local Open Scope string_scope.

Lemma append_empty_r (s : string) : s ++ "" = s.
Proof. induction s as [| c s IH]; simpl; congruence. Qed.

Lemma append_associative (a b c : string) : (a ++ b) ++ c = a ++ b ++ c.
Proof. induction a as [| x a IH]; simpl; congruence. Qed.

Lemma str_in_app (s a b : string) : str_in s (a ++ s ++ b) = true.
Proof. apply str_in_occurs. now exists a, b. Qed.

(** The characters of a separator just found are passed over. *)
Lemma split_from_skip (sep x cur rest : string) :
  split_from sep (String.length x) cur (x ++ rest) = split_from sep 0 cur rest.
Proof. induction x as [| c x IH]; simpl; [reflexivity | exact IH]. Qed.

Lemma split_from_found (c0 : ascii) (sep' cur rest : string) :
  split_from (String c0 sep') 0 cur (String c0 sep' ++ rest)
  = cur :: split_from (String c0 sep') 0 "" rest.
Proof.
  cbn [append split_from].
  assert (P : prefix (String c0 sep') (String c0 (sep' ++ rest)) = true)
    by (apply prefix_app; now exists rest).
  rewrite P. cbn [String.length]. rewrite Nat.sub_1_r. cbn [Nat.pred].
  now rewrite split_from_skip.
Qed.

(** Text without a backtick is read into the current piece. *)
Lemma split_from_walk (sep' a cur t : string) :
  no_backtick a = true ->
  split_from (String backtick sep') 0 cur (a ++ String backtick t)
  = split_from (String backtick sep') 0 (cur ++ a) (String backtick t).
Proof.
  revert cur. induction a as [| c a IH]; intros cur H.
  - now rewrite append_empty_r.
  - cbn [no_backtick] in H. apply andb_true_iff in H. destruct H as [Hc Ha].
    cbn [append]. cbn [split_from prefix].
    destruct (ascii_dec backtick c) as [E | _].
    + subst c. discriminate Hc.
    + rewrite (IH _ Ha), append_associative. reflexivity.
Qed.

Lemma split_from_end (sep' a cur : string) :
  no_backtick a = true ->
  split_from (String backtick sep') 0 cur a = [cur ++ a].
Proof.
  revert cur. induction a as [| c a IH]; intros cur H.
  - now rewrite append_empty_r.
  - cbn [no_backtick] in H. apply andb_true_iff in H. destruct H as [Hc Ha].
    cbn [split_from prefix].
    destruct (ascii_dec backtick c) as [E | _].
    + subst c. discriminate Hc.
    + rewrite (IH _ Ha), append_associative. reflexivity.
Qed.

(** The first piece starts with what has been read. *)
Lemma split_from_head (sep s cur : string) :
  exists p tl, split_from sep 0 cur s = (cur ++ p) :: tl.
Proof.
  revert cur. induction s as [| c s IH]; intros cur.
  - exists "", []. now rewrite append_empty_r.
  - cbn [split_from]. destruct (prefix sep (String c s)).
    + exists "". eexists. now rewrite append_empty_r.
    + destruct (IH (cur ++ String c "")) as [p [tl E]].
      exists (String c p), tl. rewrite E, append_associative. reflexivity.
Qed.

(** The piece before the first fence, and what follows it. *)
Lemma split_at_fence (sep' a rest : string) :
  no_backtick a = true ->
  split (String backtick sep') (a ++ String backtick sep' ++ rest)
  = a :: split (String backtick sep') rest.
Proof.
  intros H. unfold split. cbn [append].
  rewrite (split_from_walk sep' a "" _ H).
  exact (split_from_found backtick sep' ("" ++ a) rest).
Qed.

Lemma split_no_fence (sep' a : string) :
  no_backtick a = true -> split (String backtick sep') a = [a].
Proof. intros H. unfold split. now rewrite (split_from_end sep' a "" H). Qed.

(** The first piece, for the separator [```json], of a text that starts
    with a block closed by [```]. *)
Lemma first_piece_json (payload post : string) :
  no_backtick payload = true ->
  starts_with_backtick post = false ->
  nth 0 (split "```json" (payload ++ "```" ++ post)) "" = payload \/
  exists p, nth 0 (split "```json" (payload ++ "```" ++ post)) "" = payload ++ "```" ++ p.
Proof.
  intros Hp Hs. unfold split.
  change "```json" with (String backtick "``json").
  change ("```" ++ post) with (String backtick ("``" ++ post)).
  rewrite (split_from_walk "``json" payload "" _ Hp). cbn [append].
  cbn [split_from].
  destruct (prefix (String backtick "``json") (String backtick (String "`" (String "`" post))))
    eqn:P1.
  - now left.
  - right.
    assert (P2 : prefix (String backtick "``json") (String "`" (String "`" post)) = false).
    { destruct post as [| c post]; [reflexivity |].
      cbn [starts_with_backtick] in Hs. cbn [prefix].
      destruct (ascii_dec backtick "`"); [| reflexivity].
      destruct (ascii_dec "`" "`"); [| reflexivity].
      destruct (ascii_dec "`" c) as [E | _]; [| reflexivity].
      subst c. discriminate Hs. }
    cbn [split_from]. rewrite P2.
    assert (P3 : prefix (String backtick "``json") (String "`" post) = false).
    { destruct post as [| c post]; [reflexivity |].
      cbn [starts_with_backtick] in Hs. cbn [prefix].
      destruct (ascii_dec backtick "`"); [| reflexivity].
      destruct (ascii_dec "`" c) as [E | _]; [| reflexivity].
      subst c. discriminate Hs. }
    cbn [split_from]. rewrite P3.
    match goal with
    | |- context [split_from ?sep 0 ?cur post] =>
        destruct (split_from_head sep post cur) as [p [tl E]]; rewrite E
    end.
    exists p. cbn [nth]. unfold backtick.
    now rewrite !append_associative.
Qed.

(** X21.  A block fenced with [```json] and closed by [```] is extracted
    and stripped, whatever text surrounds it, when neither the text before
    the block nor the block holds a backtick and the text after the closing
    fence does not start with one. *)
Theorem fenced_text_json_block (pre payload post : string) :
  no_backtick pre = true ->
  no_backtick payload = true ->
  starts_with_backtick post = false ->
  fenced_text (pre ++ "```json" ++ payload ++ "```" ++ post) = strip payload.
Proof.
  intros Hpre Hp Hs. unfold fenced_text.
  rewrite (str_in_app "```json" pre (payload ++ "```" ++ post)).
  change "```json" with (String backtick "``json") at 1 2.
  rewrite (split_at_fence "``json" pre _ Hpre). cbn [nth].
  change (String backtick "``json") with "```json".
  f_equal.
  destruct (first_piece_json payload post Hp Hs) as [E | [p E]];
    unfold split in E; unfold split at 2; rewrite E.
  - change "```" with (String backtick "``").
    now rewrite (split_no_fence "``" payload Hp).
  - change "```" with (String backtick "``").
    now rewrite (split_at_fence "``" payload p Hp).
Qed.

Lemma fenced_text_json_block_witness :
  fenced_text ("Here is the list: " ++ "```json" ++ " [1] " ++ "```" ++ " Enjoy.") = "[1]".
Proof.
  exact (fenced_text_json_block "Here is the list: " " [1] " " Enjoy."
           eq_refl eq_refl eq_refl).
Defined.

(** X22.  A block between two plain [```] fences is extracted and
    stripped when [```json] occurs nowhere in the answer and neither the
    text before the block nor the block holds a backtick.  A language tag
    other than [json] in lower case stays in the text. *)
Theorem fenced_text_plain_block (pre payload post : string) :
  no_backtick pre = true ->
  no_backtick payload = true ->
  str_in "```json" (pre ++ "```" ++ payload ++ "```" ++ post) = false ->
  fenced_text (pre ++ "```" ++ payload ++ "```" ++ post) = strip payload.
Proof.
  intros Hpre Hp Hj. unfold fenced_text. rewrite Hj.
  rewrite (str_in_app "```" pre (payload ++ "```" ++ post)).
  change "```" with (String backtick "``").
  rewrite (split_at_fence "``" pre _ Hpre).
  rewrite (split_at_fence "``" payload post Hp). cbn [nth].
  now rewrite (split_no_fence "``" payload Hp).
Qed.

Lemma fenced_text_plain_block_witness :
  fenced_text ("" ++ "```" ++ "JSON [1] " ++ "```" ++ "") = "JSON [1]".
Proof.
  exact (fenced_text_plain_block "" "JSON [1] " "" eq_refl eq_refl eq_refl).
Defined.

End Fences.

Section GroceryHandler.

Import PyStr PyVal App Further Groq.
Local Open Scope string_scope.

Lemma dict_get_keys {V : Type} (d : dict V) (k : string) :
  (exists v, dict_get d k = Some v) <-> In k (dict_keys d).
Proof.
  induction d as [| [k' v'] d IH]; cbn [dict_get dict_keys map fst In].
  - split; [intros [v H]; discriminate | contradiction].
  - destruct (String.eqb k' k) eqn:E.
    + apply String.eqb_eq in E. split; [now left | intros _; now exists v'].
    + apply String.eqb_neq in E. rewrite IH. unfold dict_keys. tauto.
Qed.

Lemma existsb_text (l : list json) (k : string) :
  existsb (fun x => match x with JStr s => String.eqb s k | _ => false end) l = true
  <-> In (JStr k) l.
Proof.
  rewrite existsb_exists. split.
  - intros [x [Hx E]]. destruct x; try discriminate E.
    apply String.eqb_eq in E. now subst.
  - intros H. exists (JStr k). split; [exact H | apply String.eqb_refl].
Qed.

Lemma has_all_true (item : json) (keys : list string) :
  has_all item keys = inr true <-> forall k, In k keys -> contains item k = inr true.
Proof.
  induction keys as [| k keys IH]; cbn [has_all In].
  - split; [contradiction | reflexivity].
  - destruct (contains item k) as [c | [|]] eqn:E; cbn [attempt].
    + split; [discriminate | intros H; now rewrite <- (H k (or_introl eq_refl))].
    + rewrite IH. split.
      * intros H k' [<- | Hk]; [exact E | now apply H].
      * intros H k' Hk. apply H. now right.
    + split; [discriminate |].
      intros H. pose proof (H k (or_introl eq_refl)) as H'. rewrite E in H'.
      discriminate H'.
Qed.

Lemma has_all_fields (item : json) :
  has_all item ["category"; "name"; "quantity"] = inr true <-> has_fields item.
Proof.
  rewrite has_all_true.
  destruct item as [| b | z | x | s | l | d]; cbn [has_fields contains];
    try (split; [intros H; now specialize (H "category" (or_introl eq_refl)) | contradiction]).
  - split; intros H k Hk.
    + apply str_in_occurs. specialize (H k Hk). congruence.
    + f_equal. apply str_in_occurs. now apply H.
  - split; intros H k Hk.
    + apply existsb_text. specialize (H k Hk). congruence.
    + f_equal. apply existsb_text. now apply H.
  - split; intros H k Hk.
    + apply dict_get_keys. specialize (H k Hk).
      destruct (dict_get d k) as [v |]; [now exists v | discriminate H].
    + specialize (H k Hk). apply dict_get_keys in H. destruct H as [v ->]. reflexivity.
Qed.

Lemma has_all_causes (item : json) (keys : list string) (c : cause) :
  has_all item keys = inl c -> c = Python TypeError.
Proof.
  induction keys as [| k keys IH]; cbn [has_all]; [discriminate |].
  destruct (contains item k) as [c' | [|]] eqn:E; cbn [attempt].
  - intros [= <-]. destruct item; try discriminate E; now inversion E.
  - exact IH.
  - discriminate.
Qed.

Lemma check_items_fields (items : list json) :
  check_items items = inr tt <-> Forall has_fields items.
Proof.
  induction items as [| item items IH]; cbn [check_items].
  - split; [constructor | reflexivity].
  - destruct (has_all item ["category"; "name"; "quantity"]) as [c | [|]] eqn:E;
      cbn [attempt].
    + split; [discriminate |]. intros H. inversion H as [| ? ? Hi _]; subst.
      apply has_all_fields in Hi. congruence.
    + rewrite IH. apply has_all_fields in E. split.
      * now constructor.
      * intros H. now inversion H.
    + split; [discriminate |]. intros H. inversion H as [| ? ? Hi _]; subst.
      apply has_all_fields in Hi. congruence.
Qed.

Lemma check_items_causes (items : list json) (c : cause) :
  check_items items = inl c -> c = MissingFields \/ c = Python TypeError.
Proof.
  induction items as [| item items IH]; cbn [check_items]; [discriminate |].
  destruct (has_all item ["category"; "name"; "quantity"]) as [c' | [|]] eqn:E;
    cbn [attempt].
  - intros [= <-]. right. exact (has_all_causes _ _ _ E).
  - exact IH.
  - intros [= <-]. now left.
Qed.

Lemma check_dict_object (v : json) :
  check_dict v = if is_object v then inr tt else inl (Python AttributeError).
Proof. now destruct v. Qed.

(** What the handler answers once the service has answered with a text. *)
Lemma generate_grocery_list_text (g : GroqWorld) (body result : json) (content : string) :
  GROQ_API_KEY g <> "" ->
  is_object (py_or body (JObj [])) = true ->
  post_chat g = Answered result ->
  message_content result = inr (JStr content) ->
  generate_grocery_list g body = (true, parse_list g (strip content)).
Proof.
  intros Hk Ho Hp Hc. unfold generate_grocery_list.
  rewrite (is_empty_false _ Hk), check_dict_object, Ho, Hp, Hc. reflexivity.
Qed.

(** An answer that is a list or the fallback comes from [parse_list]. *)
Lemma generate_grocery_list_parsed (g : GroqWorld) (body : json) (R : grocery_response) :
  match R with GroceryList _ | Fallback => True | _ => False end ->
  snd (generate_grocery_list g body) = R ->
  GROQ_API_KEY g <> "" /\
  is_object (py_or body (JObj [])) = true /\
  exists result content,
    post_chat g = Answered result /\
    message_content result = inr (JStr content) /\
    parse_list g (strip content) = R.
Proof.
  intros HR. unfold generate_grocery_list.
  destruct (is_empty (GROQ_API_KEY g)) eqn:Hk; cbn [snd].
  { intros <-. contradiction. }
  rewrite check_dict_object.
  destruct (is_object (py_or body (JObj []))) eqn:Ho; cbn [snd].
  2:{ intros <-. contradiction. }
  destruct (post_chat g) as [result | |] eqn:Hp; try (intros <-; contradiction).
  destruct (message_content result) as [c | content] eqn:Hc; cbn [attempt].
  { intros <-. contradiction. }
  destruct content as [| b | z | x | s | l | d]; cbn [method_strip raised];
    try (intros <-; contradiction).
  intros E. split; [| split; [reflexivity |]].
  - intros K. rewrite K in Hk. discriminate Hk.
  - now exists result, s.
Qed.

(** X23.  The handler returns a list of its own parsing exactly when the
    key is set, the body is false or an object, the service answers with a
    text, the text inside the fences parses to a list, and every item
    passes the check of the three fields.  The check accepts an object
    with the three keys, but also a list that holds the three names and a
    string in which they occur. *)
Theorem grocery_list_iff (g : GroqWorld) (body : json) (l : list json) :
  snd (generate_grocery_list g body) = GroceryList l <->
  GROQ_API_KEY g <> "" /\
  is_object (py_or body (JObj [])) = true /\
  exists result content,
    post_chat g = Answered result /\
    message_content result = inr (JStr content) /\
    json_loads g (fenced_text (strip content)) = Parsed (JArr l) /\
    Forall has_fields l.
Proof.
  split.
  - intros H. apply generate_grocery_list_parsed in H; [| exact I].
    destruct H as [Hk [Ho [result [content [Hp [Hc E]]]]]].
    split; [exact Hk | split; [exact Ho |]]. exists result, content.
    split; [exact Hp | split; [exact Hc |]].
    unfold parse_list in E.
    destruct (json_loads g (fenced_text (strip content)))
      as [[| b | z | x | s | l' | d] | |];
      try discriminate E.
    destruct (check_items l') as [c | []] eqn:Ec; [discriminate E |].
    injection E as <-. split; [reflexivity | now apply check_items_fields].
  - intros [Hk [Ho [result [content [Hp [Hc [Hj Hf]]]]]]].
    rewrite (generate_grocery_list_text g body result content Hk Ho Hp Hc).
    cbn [snd]. unfold parse_list. rewrite Hj.
    apply check_items_fields in Hf. now rewrite Hf.
Qed.

(** X24.  The fallback list is served only when the text inside the
    fences is not JSON, that is when [json.loads] raises
    [JSONDecodeError].  A text that parses to something other than a
    list, or to a list with an item that fails the check, gives status 500
    instead, as do another exception of [json.loads], an answer without a
    text and any failure of the service. *)
Theorem grocery_fallback_iff (g : GroqWorld) (body : json) :
  (snd (generate_grocery_list g body) = Fallback <->
   GROQ_API_KEY g <> "" /\
   is_object (py_or body (JObj [])) = true /\
   exists result content,
     post_chat g = Answered result /\
     message_content result = inr (JStr content) /\
     json_loads g (fenced_text (strip content)) = JSONDecodeError) /\
  (forall result content v,
     GROQ_API_KEY g <> "" ->
     is_object (py_or body (JObj [])) = true ->
     post_chat g = Answered result ->
     message_content result = inr (JStr content) ->
     json_loads g (fenced_text (strip content)) = Parsed v ->
     match v with
     | JArr l =>
         Forall has_fields l \/
         generate_grocery_list g body = (true, GroceryFailed MissingFields) \/
         generate_grocery_list g body = (true, GroceryFailed (Python TypeError))
     | _ => generate_grocery_list g body = (true, GroceryFailed NotAList)
     end) /\
  (forall result content,
     GROQ_API_KEY g <> "" ->
     is_object (py_or body (JObj [])) = true ->
     post_chat g = Answered result ->
     message_content result = inr (JStr content) ->
     json_loads g (fenced_text (strip content)) = LoadsError ->
     generate_grocery_list g body = (true, GroceryFailed LoadsOther)).
Proof.
  split; [split | split].
  - intros H. apply generate_grocery_list_parsed in H; [| exact I].
    destruct H as [Hk [Ho [result [content [Hp [Hc E]]]]]].
    split; [exact Hk | split; [exact Ho |]]. exists result, content.
    split; [exact Hp | split; [exact Hc |]].
    unfold parse_list in E.
    destruct (json_loads g (fenced_text (strip content)))
      as [[| b | z | x | s | l' | d] | |];
      try discriminate E; [| reflexivity].
    destruct (check_items l'); discriminate E.
  - intros [Hk [Ho [result [content [Hp [Hc Hj]]]]]].
    rewrite (generate_grocery_list_text g body result content Hk Ho Hp Hc).
    cbn [snd]. unfold parse_list. now rewrite Hj.
  - intros result content v Hk Ho Hp Hc Hj.
    rewrite (generate_grocery_list_text g body result content Hk Ho Hp Hc).
    unfold parse_list. rewrite Hj.
    destruct v as [| b | z | x | s | l | d]; try reflexivity.
    destruct (check_items l) as [c | []] eqn:Ec.
    + right. destruct (check_items_causes l c Ec) as [-> | ->]; [now left | now right].
    + left. now apply check_items_fields.
  - intros result content Hk Ho Hp Hc Hj.
    rewrite (generate_grocery_list_text g body result content Hk Ho Hp Hc).
    unfold parse_list. now rewrite Hj.
Qed.

(** X25.  Without a key, or with a body that is true but no object, the
    handler answers status 500 and the completion service is not called;
    in every other case it is called exactly once, whatever the body
    holds. *)
Theorem grocery_call_iff (g : GroqWorld) (body : json) :
  (fst (generate_grocery_list g body) = true <->
   GROQ_API_KEY g <> "" /\ is_object (py_or body (JObj [])) = true) /\
  (GROQ_API_KEY g = "" -> generate_grocery_list g body = (false, GroceryKeyNotSet)) /\
  (GROQ_API_KEY g <> "" -> is_object (py_or body (JObj [])) = false ->
   generate_grocery_list g body = (false, GroceryFailed (Python AttributeError))).
Proof.
  unfold generate_grocery_list. rewrite check_dict_object.
  destruct (is_empty (GROQ_API_KEY g)) eqn:Hk.
  - apply is_empty_true in Hk. split; [split |].
    + discriminate.
    + intros [K _]. contradiction.
    + split; [reflexivity | intros K; contradiction].
  - assert (Hk' : GROQ_API_KEY g <> "") by (intros E; rewrite E in Hk; discriminate).
    destruct (is_object (py_or body (JObj []))); cbn [fst].
    + split; [split; [now split | reflexivity] |].
      split; [intros K; contradiction | discriminate].
    + split; [split; [discriminate | intros [_ K]; discriminate K] |].
      split; [intros K; contradiction | reflexivity].
Qed.

End GroceryHandler.
